(** * WebAutomationEngine: a shallow embedding of [web-automation-cli.js]

    The engine drives one Playwright browser through eight tools.  Playwright,
    the file system and the clock are external: they are an interface
    ([Env]) whose operations take and return the state of the outside world.
    The engine's own code (the constructor, [initialize], the tool bodies,
    [runAutomation], [cleanup]) is embedded in a state-and-exception monad
    that threads

      - [this], the engine object, whose fields [initialize] mutates;
      - the outside world;
      - the list of calls issued to the outside world, in order.

    Console output ([console.log], [chalk]) has no effect on control flow and
    is left out.  JavaScript strings are [string]s, one character per code
    unit; numbers that the program only prints, negates or passes on are
    integers ([Z]). *)

From Stdlib Require Import ZArith List String Ascii Bool Lia DecimalString DecimalPos.
Import ListNotations.

Open Scope string_scope.
Open Scope Z_scope.

(** ** JavaScript values and string primitives *)

Module Js.

(** The values an option or a field may hold. *)
Inductive value : Type :=
| VUndefined
| VNull
| VBool (b : bool)
| VNum (n : Z)
| VNaN
| VStr (s : string).

Definition is_empty (s : string) : bool :=
  match s with EmptyString => true | String _ _ => false end.

(** ToBoolean. *)
Definition truthy (v : value) : bool :=
  match v with
  | VUndefined | VNull | VNaN => false
  | VBool b => b
  | VNum n => negb (n =? 0)
  | VStr s => negb (is_empty s)
  end.

(** [a || b]. *)
Definition or (a b : value) : value := if truthy a then a else b.

(** Number-to-string on integers below 10^21 in absolute value, which the
    program prints digit by digit; from 10^21 on it prints an exponent, and
    this function is not used. *)
Definition num_to_string (n : Z) : string := NilZero.string_of_int (Z.to_int n).

(** Template-literal interpolation of a value. *)
Definition to_string (v : value) : string :=
  match v with
  | VUndefined => "undefined"
  | VNull => "null"
  | VBool true => "true"
  | VBool false => "false"
  | VNum n => num_to_string n
  | VNaN => "NaN"
  | VStr s => s
  end.

(** [s.replace(/[...]/g, by)] for a character class. *)
Fixpoint replace_class (cls : ascii -> bool) (by_ : string) (s : string) : string :=
  match s with
  | EmptyString => EmptyString
  | String c rest =>
      if cls c then by_ ++ replace_class cls by_ rest
      else String c (replace_class cls by_ rest)
  end.

(** The class [[:.]]. *)
Definition colon_or_dot (c : ascii) : bool :=
  (Ascii.eqb c ":" || Ascii.eqb c ".")%bool.

(** White space as [trim] sees it, within the first 256 code units. *)
Definition is_space (c : ascii) : bool :=
  let n := N_of_ascii c in
  ((n =? 9) || (n =? 10) || (n =? 11) || (n =? 12) || (n =? 13)
   || (n =? 32) || (n =? 160))%N%bool.

Fixpoint trim_start (s : string) : string :=
  match s with
  | EmptyString => EmptyString
  | String c rest => if is_space c then trim_start rest else s
  end.

(** Drops trailing white space: a character is kept when something
    non-blank follows it or it is itself non-blank. *)
Fixpoint trim_end (s : string) : string :=
  match s with
  | EmptyString => EmptyString
  | String c rest =>
      match trim_end rest with
      | EmptyString => if is_space c then EmptyString else String c EmptyString
      | r => String c r
      end
  end.

Definition trim (s : string) : string := trim_end (trim_start s).

(** [s.substring(0, n)]. *)
Definition substring0 (n : nat) (s : string) : string := String.substring 0 n s.

(** [s.split(' ')[0]]: the part of [s] before its first space. *)
Fixpoint split_space_first (s : string) : string :=
  match s with
  | EmptyString => EmptyString
  | String c rest =>
      if Ascii.eqb c " " then EmptyString else String c (split_space_first rest)
  end.

(** [s || d] on strings. *)
Definition str_or (s d : string) : string := if is_empty s then d else s.

(** Decimal digits of [n], left-padded with zeros to [width]. *)
Fixpoint zeros (k : nat) : string :=
  match k with O => EmptyString | S k' => String "0" (zeros k') end.

Definition pad (width : nat) (n : Z) : string :=
  let d := num_to_string (Z.abs n) in
  zeros (width - String.length d) ++ d.

(** A point in time, broken down in UTC. *)
Record date : Type := mkDate {
  year : Z; month : Z; day : Z;
  hours : Z; minutes : Z; seconds : Z; milliseconds : Z
}.

(** [Date.prototype.toISOString]: four-digit years from 0 to 9999, signed
    six-digit years outside. *)
Definition toISOString (d : date) : string :=
  let y := year d in
  let ys := if (0 <=? y) && (y <=? 9999) then pad 4 y
            else (if y <? 0 then "-" else "+") ++ pad 6 y in
  ys ++ "-" ++ pad 2 (month d) ++ "-" ++ pad 2 (day d) ++ "T"
     ++ pad 2 (hours d) ++ ":" ++ pad 2 (minutes d) ++ ":" ++ pad 2 (seconds d)
     ++ "." ++ pad 3 (milliseconds d) ++ "Z".

End Js.

(** ** Results and errors *)

Inductive exn : Type := Error (message : string).

Definition message (e : exn) : string := match e with Error m => m end.

Inductive result (A : Type) : Type :=
| Ok (a : A)
| Throw (e : exn).

Arguments Ok {A} a.
Arguments Throw {A} e.

(** ** The page as [analyze_form] sees it *)

(** A property that is a string on an HTML element and an object, an
    [SVGAnimatedString], on an SVG element: [className] and [href]. *)
Inductive reflected : Type :=
| Reflected (s : string)
| Animated.

(** The elements the three selectors match.  A selector matches by name, so
    an element need not be an HTML element: [type], [name] and [placeholder]
    are strings where the element has the property and [undefined] ([None])
    where it has not; [id] and [textContent] are strings on every element.
    [visible] is [offsetParent !== null]. *)
Record input_element : Type := mkInput {
  in_visible : bool;
  in_type : option string;
  in_name : option string;
  in_id : string;
  in_placeholder : option string;
  in_className : reflected
}.

Record button_element : Type := mkButton {
  bt_visible : bool;
  bt_textContent : string;
  bt_type : option string;
  bt_className : reflected
}.

Record anchor_element : Type := mkAnchor {
  an_textContent : string;
  an_href : reflected
}.

(** The three [querySelectorAll] results, in document order. *)
Record document : Type := mkDocument {
  q_inputs : list input_element;     (* 'input, textarea, select' *)
  q_buttons : list button_element;   (* 'button, input[type="submit"]' *)
  q_links : list anchor_element      (* 'a[href]' *)
}.

(** ** The outside world *)

(** Every call the engine issues, as it appears in the trace. *)
Inductive call : Type :=
| CExistsSync (path : string)
| CMkdirSync (path : string) (recursive : bool)
| CNow
| CLaunch (headless slowMo : Js.value)
| CNewPage
| CGoto (url : string) (timeout : Js.value)
| CTitle
| CScreenshot (path : string) (fullPage : bool)
| CWaitForSelector (selector : string) (timeout : Z)
| CClick (selector : string)
| CPress (key : string)
| CType (selector text : string) (delay : Z)
| CEvaluate
| CWheel (x y : Z)
| CClose
| CIsConnected.

Definition call_eqb_click (c : call) : bool :=
  match c with CClick _ => true | _ => false end.


Definition call_eqb_close (c : call) : bool :=
  match c with CClose => true | _ => false end.

(** Playwright, [fs] and the clock.  [world] is everything outside the
    engine; an operation may fail (it throws) and changes the world. *)
Class Env : Type := {
  world : Type;
  browser_handle : Type;
  page_handle : Type;
  fs_existsSync : string -> world -> bool;
  fs_mkdirSync : string -> bool -> world -> result unit * world;
  clock_now : world -> Js.date;
  chromium_launch : Js.value -> Js.value -> world -> result browser_handle * world;
  browser_newPage : browser_handle -> world -> result page_handle * world;
  browser_close : browser_handle -> world -> result unit * world;
  browser_isConnected : browser_handle -> world -> bool;
  page_goto : page_handle -> string -> Js.value -> world -> result unit * world;
  page_title : page_handle -> world -> result string * world;
  page_screenshot : page_handle -> string -> bool -> world -> result unit * world;
  page_waitForSelector : page_handle -> string -> Z -> world -> result unit * world;
  page_click : page_handle -> string -> world -> result unit * world;
  keyboard_press : page_handle -> string -> world -> result unit * world;
  page_type : page_handle -> string -> string -> Z -> world -> result unit * world;
  page_document : page_handle -> world -> result document * world;
  mouse_wheel : page_handle -> Z -> Z -> world -> result unit * world
}.

(** ** The engine *)

Section Engine.

Context {E : Env}.

(** The fields of a [WebAutomationEngine] object. *)
Record engine : Type := mkEngine {
  headless : Js.value;
  slowMo : Js.value;
  timeout : Js.value;
  screenshotPath : Js.value;
  browser : option browser_handle;
  page : option page_handle
}.

Record state : Type := mkState {
  this : engine;
  env : world;
  calls : list call
}.

(** Computations: they read and write the state and either return or throw.
    The state survives a throw, as it does in the program. *)
Definition M (A : Type) : Type := state -> result A * state.

Definition ret {A} (a : A) : M A := fun s => (Ok a, s).

Definition throw {A} (e : exn) : M A := fun s => (Throw e, s).

Definition bind {A B} (m : M A) (k : A -> M B) : M B :=
  fun s =>
    match m s with
    | (Ok a, s') => k a s'
    | (Throw e, s') => (Throw e, s')
    end.

(** [try { m } catch (error) { h error }]. *)
Definition try_catch {A} (m : M A) (h : exn -> M A) : M A :=
  fun s =>
    match m s with
    | (Ok a, s') => (Ok a, s')
    | (Throw e, s') => h e s'
    end.

Definition get_this : M engine := fun s => (Ok (this s), s).

Definition set_this (e : engine) : M unit :=
  fun s => (Ok tt, mkState e (env s) (calls s)).

(** One call to the outside world: it is logged, then carried out. *)
Definition perform {A} (c : call) (op : world -> result A * world) : M A :=
  fun s =>
    let (r, w) := op (env s) in
    (r, mkState (this s) w (calls s ++ [c])).

(** A call that cannot fail. *)
Definition query {A} (c : call) (op : world -> A) : M A :=
  fun s => (Ok (op (env s)), mkState (this s) (env s) (calls s ++ [c])).

End Engine.

Declare Scope engine_scope.
Delimit Scope engine_scope with engine.
Notation "x <- c1 ;; c2" := (bind c1 (fun x => c2))
  (at level 61, c1 at next level, right associativity) : engine_scope.
Notation "c1 ;; c2" := (bind c1 (fun _ => c2))
  (at level 61, right associativity) : engine_scope.
Open Scope engine_scope.

(** The options object of the constructor; an absent key reads [VUndefined]. *)
Record options : Type := mkOptions {
  opt_headless : Js.value;
  opt_slowMo : Js.value;
  opt_timeout : Js.value;
  opt_screenshotPath : Js.value
}.

(** [{}], the default argument. *)
Definition no_options : options :=
  mkOptions Js.VUndefined Js.VUndefined Js.VUndefined Js.VUndefined.

(** The options object of [runAutomation]. *)
Record run_options : Type := mkRunOptions {
  opt_model : Js.value;
  opt_maxTurns : Js.value
}.

(** A form field as [fill_form] receives it. *)
Record form_field : Type := mkField {
  name : string;
  value : string;
  selectors : list string
}.

Inductive direction : Type := up | down | left | right.

Definition direction_name (d : direction) : string :=
  match d with up => "up" | down => "down" | left => "left" | right => "right" end.

(** What [analyze_form] reports per element. *)
Record input_summary : Type := mkInputSummary {
  is_type : string;
  is_name : string;
  is_id : string;
  is_placeholder : string;
  is_className : string
}.

Record button_summary : Type := mkButtonSummary {
  bs_text : string;
  bs_type : string;
  bs_className : string
}.

Record link_summary : Type := mkLinkSummary {
  ls_text : string;
  ls_href : string
}.

Record form_analysis : Type := mkAnalysis {
  inputs : list input_summary;
  buttons : list button_summary;
  links : list link_summary
}.

(** The value [analyze_form] returns: the summary, or [{ error }]. *)
Inductive analysis_result : Type :=
| Analysis (a : form_analysis)
| AnalysisError (error : string).

(** [x || d] for a property that is a string or [undefined]. *)
Definition prop_or (x : option string) (d : string) : string :=
  match x with
  | Some s => Js.str_or s d
  | None => d
  end.

(** [who.className?.split(' ')[0] || '']: an object has no [split], and
    calling it is a TypeError. *)
Definition first_class (who : string) (c : reflected) : result string :=
  match c with
  | Reflected s => Ok (Js.str_or (Js.split_space_first s) EmptyString)
  | Animated => Throw (Error (who ++ ".className?.split is not a function"))
  end.

(** [link.href?.substring(0, 100) || '']. *)
Definition short_href (h : reflected) : result string :=
  match h with
  | Reflected s => Ok (Js.str_or (Js.substring0 100 s) EmptyString)
  | Animated => Throw (Error "link.href?.substring is not a function")
  end.

(** [array.map(f)] for an [f] that may throw: the first throw ends it. *)
Fixpoint map_result {A B : Type} (f : A -> result B) (l : list A) : result (list B) :=
  match l with
  | [] => Ok []
  | x :: rest =>
      match f x with
      | Throw e => Throw e
      | Ok y =>
          match map_result f rest with
          | Throw e => Throw e
          | Ok ys => Ok (y :: ys)
          end
      end
  end.

(** The function handed to [page.evaluate]. *)
Definition link_shown (link : anchor_element) : bool :=
  let text := Js.str_or (Js.trim (an_textContent link)) EmptyString in
  ((0 <? String.length text)%nat && (String.length text <? 50)%nat)%bool.

Definition summarize_input (input : input_element) : result input_summary :=
  match first_class "input" (in_className input) with
  | Throw e => Throw e
  | Ok className =>
      Ok {| is_type := prop_or (in_type input) "text";
            is_name := prop_or (in_name input) EmptyString;
            is_id := Js.str_or (in_id input) EmptyString;
            is_placeholder := prop_or (in_placeholder input) EmptyString;
            is_className := className |}
  end.

Definition summarize_button (button : button_element) : result button_summary :=
  match first_class "button" (bt_className button) with
  | Throw e => Throw e
  | Ok className =>
      Ok {| bs_text :=
              Js.substring0 50
                (Js.str_or (Js.trim (bt_textContent button)) EmptyString);
            bs_type := prop_or (bt_type button) EmptyString;
            bs_className := className |}
  end.

Definition summarize_link (link : anchor_element) : result link_summary :=
  match short_href (an_href link) with
  | Throw e => Throw e
  | Ok href =>
      Ok {| ls_text := Js.str_or (Js.trim (an_textContent link)) EmptyString;
            ls_href := href |}
  end.

Definition formAnalysis (d : document) : result form_analysis :=
  match map_result summarize_input (firstn 10 (filter in_visible (q_inputs d))) with
  | Throw e => Throw e
  | Ok inputs_ =>
      match map_result summarize_button
              (firstn 5 (filter bt_visible (q_buttons d))) with
      | Throw e => Throw e
      | Ok buttons_ =>
          match map_result summarize_link
                  (firstn 10 (filter link_shown (q_links d))) with
          | Throw e => Throw e
          | Ok links_ =>
              Ok {| inputs := inputs_; buttons := buttons_; links := links_ |}
          end
      end
  end.

(** [scrollMap[direction]]. *)
Definition scrollMap (amount : Z) (d : direction) : Z * Z :=
  match d with
  | down => (0, amount)
  | up => (0, - amount)
  | right => (amount, 0)
  | left => (- amount, 0)
  end.

(** [name], which is [null] or a string, as a value. *)
Definition name_value (name : option string) : Js.value :=
  match name with
  | Some n => Js.VStr n
  | None => Js.VNull
  end.

(** The file name [take_screenshot] builds from [name] and the ISO string
    of the capture time. *)
Definition screenshot_filename (name : option string) (iso : string) : string :=
  let timestamp := Js.replace_class Js.colon_or_dot "-" iso in
  if Js.truthy (name_value name)
  then Js.to_string (name_value name) ++ "-" ++ timestamp ++ ".png"
  else "screenshot-" ++ timestamp ++ ".png".

Section Tools.

Context {E : Env}.

(** Reading a property of [this.page] (or of [this.browser]) when it is
    [null] throws a TypeError before anything is called. *)
Definition null_property (prop : string) : exn :=
  Error ("Cannot read properties of null (reading '" ++ prop ++ "')").

Definition the_page (prop : string) : M page_handle :=
  this_ <- get_this ;;
  match page this_ with
  | Some p => ret p
  | None => throw (null_property prop)
  end.

Definition the_browser (prop : string) : M browser_handle :=
  this_ <- get_this ;;
  match browser this_ with
  | Some b => ret b
  | None => throw (null_property prop)
  end.

(** *** The calls, as the engine writes them *)

Definition waitForSelector (selector : string) (timeout_ : Z) : M unit :=
  p <- the_page "waitForSelector" ;;
  perform (CWaitForSelector selector timeout_) (page_waitForSelector p selector timeout_).

Definition click (selector : string) : M unit :=
  p <- the_page "click" ;;
  perform (CClick selector) (page_click p selector).

Definition press (key : string) : M unit :=
  p <- the_page "keyboard" ;;
  perform (CPress key) (keyboard_press p key).

Definition type (selector text : string) (delay : Z) : M unit :=
  p <- the_page "type" ;;
  perform (CType selector text delay) (page_type p selector text delay).

Definition close (b : browser_handle) : M unit :=
  perform CClose (browser_close b).

Definition isConnected (b : browser_handle) : M bool :=
  query CIsConnected (browser_isConnected b).

(** *** constructor *)

Definition constructor (o : options) : M unit :=
  set_this
    {| headless := Js.or (opt_headless o) (Js.VBool false);
       slowMo := Js.or (opt_slowMo o) (Js.VNum 1000);
       timeout := Js.or (opt_timeout o) (Js.VNum 30000);
       screenshotPath := Js.or (opt_screenshotPath o) (Js.VStr "./screenshots");
       browser := None;
       page := None |} ;;
  this_ <- get_this ;;
  let dir := Js.to_string (screenshotPath this_) in
  present <- query (CExistsSync dir) (fs_existsSync dir) ;;
  if negb present then perform (CMkdirSync dir true) (fs_mkdirSync dir true)
  else ret tt.

(** *** initialize *)

Definition initialize : M bool :=
  try_catch
    (this_ <- get_this ;;
     b <- perform (CLaunch (headless this_) (slowMo this_))
            (chromium_launch (headless this_) (slowMo this_)) ;;
     this_ <- get_this ;;
     set_this {| headless := headless this_; slowMo := slowMo this_;
                 timeout := timeout this_; screenshotPath := screenshotPath this_;
                 browser := Some b; page := page this_ |} ;;
     b <- the_browser "newPage" ;;
     p <- perform CNewPage (browser_newPage b) ;;
     this_ <- get_this ;;
     set_this {| headless := headless this_; slowMo := slowMo this_;
                 timeout := timeout this_; screenshotPath := screenshotPath this_;
                 browser := browser this_; page := Some p |} ;;
     ret true)
    (fun error => throw error).

(** *** open_browser *)

Definition openBrowser (url : string) : M string :=
  try_catch
    (p <- the_page "goto" ;;
     this_ <- get_this ;;
     perform (CGoto url (timeout this_)) (page_goto p url (timeout this_)) ;;
     p <- the_page "title" ;;
     title <- perform CTitle (page_title p) ;;
     ret ("Successfully navigated to " ++ url ++ ". Page title: "
          ++ String (ascii_of_nat 34) title ++ String (ascii_of_nat 34) EmptyString))
    (fun error => ret ("Navigation failed: " ++ message error)).

(** *** take_screenshot; [name] is [null] ([None]) or a string *)

Definition takeScreenshot (name : option string) : M string :=
  try_catch
    (now <- query CNow clock_now ;;
     let filename := screenshot_filename name (Js.toISOString now) in
     p <- the_page "screenshot" ;;
     this_ <- get_this ;;
     let path := Js.to_string (screenshotPath this_) ++ "/" ++ filename in
     perform (CScreenshot path false) (page_screenshot p path false) ;;
     ret ("Screenshot saved as " ++ filename))
    (fun error => ret ("Screenshot failed: " ++ message error)).

(** *** click_element: the loop over [selectors] *)

Fixpoint clickElement_from (description : string) (selectors : list string) : M string :=
  match selectors with
  | [] => ret ("Failed to click " ++ description)
  | selector :: rest =>
      try_catch
        (waitForSelector selector 3000 ;;
         click selector ;;
         ret ("Successfully clicked " ++ description ++ " using " ++ selector))
        (fun _ => clickElement_from description rest)
  end.

Definition clickElement (selectors : list string) (description : string) : M string :=
  clickElement_from description selectors.

(** *** fill_form *)

(** The inner loop over one field's selectors; it yields [filled]. *)
Fixpoint fill_field (field : form_field) (selectors : list string) : M bool :=
  match selectors with
  | [] => ret false
  | selector :: rest =>
      try_catch
        (waitForSelector selector 2000 ;;
         click selector ;;
         press "Control+A" ;;
         press "Delete" ;;
         type selector (value field) 50 ;;
         ret true)
        (fun _ => fill_field field rest)
  end.

(** The outer loop, from a given [filledCount]. *)
Fixpoint fill_fields (fields : list form_field) (filledCount : Z) : M Z :=
  match fields with
  | [] => ret filledCount
  | field :: rest =>
      filled <- fill_field field (selectors field) ;;
      fill_fields rest (if filled : bool then filledCount + 1 else filledCount)
  end.

Definition fillForm (fields : list form_field) : M string :=
  filledCount <- fill_fields fields 0 ;;
  ret ("Filled " ++ Js.num_to_string filledCount ++ "/"
       ++ Js.num_to_string (Z.of_nat (List.length fields)) ++ " form fields").

(** *** analyze_form *)

(** [page.evaluate(f)]: [f] runs on the page's document, and what it throws
    there the call throws here. *)
Definition evaluate {A : Type} (f : document -> result A) (p : page_handle)
    (w : world) : result A * world :=
  let (r, w') := page_document p w in
  (match r with
   | Ok d => f d
   | Throw e => Throw e
   end, w').

Definition analyzeForm : M analysis_result :=
  try_catch
    (p <- the_page "evaluate" ;;
     a <- perform CEvaluate (evaluate formAnalysis p) ;;
     ret (Analysis a))
    (fun error => ret (AnalysisError ("Form analysis failed: " ++ message error))).

(** *** wait_for_element *)

Fixpoint waitForElement (selectors : list string) (timeout_ : Z) : M string :=
  match selectors with
  | [] => ret "No elements found"
  | selector :: rest =>
      try_catch
        (waitForSelector selector timeout_ ;;
         ret ("Element found: " ++ selector))
        (fun _ => waitForElement rest timeout_)
  end.

(** *** scroll_page *)

Definition scrollPage (d : direction) (amount : Z) : M string :=
  try_catch
    (let (x, y) := scrollMap amount d in
     p <- the_page "mouse" ;;
     perform (CWheel x y) (mouse_wheel p x y) ;;
     ret ("Scrolled " ++ direction_name d ++ " by " ++ Js.num_to_string amount ++ "px"))
    (fun error => ret ("Scroll failed: " ++ message error)).

(** *** close_browser *)

Definition closeBrowser : M string :=
  try_catch
    (this_ <- get_this ;;
     match browser this_ with
     | Some b => close b
     | None => ret tt
     end ;;
     ret "Browser closed successfully")
    (fun error => ret ("Browser close failed: " ++ message error)).

(** *** cleanup *)

Definition close_if_connected : M unit :=
  this_ <- get_this ;;
  match browser this_ with
  | Some b =>
      connected <- isConnected b ;;
      if connected : bool then close b else ret tt
  | None => ret tt
  end.

Definition cleanup : M unit := close_if_connected.

(** *** runAutomation

    [run] is [Runner.run] of the agents library, given the [maxTurns] and
    the model the engine configures. *)
Definition runAutomation {R : Type}
    (run : Js.value -> Js.value -> string -> M R)
    (task : string) (o : run_options) : M R :=
  let model := Js.or (opt_model o) (Js.VStr "gpt-4o-mini") in
  let maxTurns := Js.or (opt_maxTurns o) (Js.VNum 25) in
  try_catch
    (run maxTurns model task)
    (fun error => close_if_connected ;; throw error).

End Tools.

(** ** The tool registry and the turn loop *)

(** A validated request for one of the eight tools of [createTools]. *)
Inductive invocation : Type :=
| OpenBrowser (url : string)
| TakeScreenshot (name : option string)
| ClickElement (selectors : list string) (description : string)
| FillForm (fields : list form_field)
| AnalyzeForm
| WaitForElement (selectors : list string) (timeout : Z)
| ScrollPage (d : direction) (amount : Z)
| CloseBrowser.

Inductive tool_output : Type :=
| Text (s : string)
| Structured (a : analysis_result).

Definition tool_name (i : invocation) : string :=
  match i with
  | OpenBrowser _ => "open_browser"
  | TakeScreenshot _ => "take_screenshot"
  | ClickElement _ _ => "click_element"
  | FillForm _ => "fill_form"
  | AnalyzeForm => "analyze_form"
  | WaitForElement _ _ => "wait_for_element"
  | ScrollPage _ _ => "scroll_page"
  | CloseBrowser => "close_browser"
  end.

Module Runner.

(** What the reasoning engine answers in one turn. *)
Inductive decision : Type :=
| ToolCall (i : invocation)
| FinalAnswer (text : string).

Definition history : Type := list (invocation * tool_output).

(** The reasoning engine: task and history in; a decision out, or the error
    of a request that failed. *)
Definition reasoning_engine : Type := string -> history -> result decision.

(** What a run returns. *)
Record run_result : Type := mkRunResult {
  finalOutput : string;
  dispatched : history
}.

(** The turn limit of a run whose call names none. *)
Definition DEFAULT_MAX_TURNS : Z := 10.

Definition MaxTurnsExceededError (maxTurns : Z) : exn :=
  Error ("Max turns (" ++ Js.num_to_string maxTurns ++ ") exceeded").

End Runner.

Section Orchestration.

Context {E : Env}.

(** The [execute] of the tool an invocation names. *)
Definition dispatch (i : invocation) : M tool_output :=
  match i with
  | OpenBrowser url => r <- openBrowser url ;; ret (Text r)
  | TakeScreenshot name => r <- takeScreenshot name ;; ret (Text r)
  | ClickElement selectors description =>
      r <- clickElement selectors description ;; ret (Text r)
  | FillForm fields => r <- fillForm fields ;; ret (Text r)
  | AnalyzeForm => r <- analyzeForm ;; ret (Structured r)
  | WaitForElement selectors timeout_ =>
      r <- waitForElement selectors timeout_ ;; ret (Text r)
  | ScrollPage d amount => r <- scrollPage d amount ;; ret (Text r)
  | CloseBrowser => r <- closeBrowser ;; ret (Text r)
  end.

(** The run loop of the agents library (@openai/agents), which is not part
    of the repository; modelled from the library's behaviour as far as the
    engine's call exercises it, one tool call per turn.  Each turn asks the
    reasoning engine; a final answer ends the run, a tool call is dispatched
    and recorded, a failed request is thrown on.  A turn beyond the limit
    throws [MaxTurnsExceededError] before the engine is asked. *)
Fixpoint run_turns (engine : Runner.reasoning_engine) (limit : Z) (task : string)
    (turns_left : nat) (h : Runner.history) : M Runner.run_result :=
  match turns_left with
  | O => throw (Runner.MaxTurnsExceededError limit)
  | S turns_left' =>
      match engine task h with
      | Throw e => throw e
      | Ok (Runner.FinalAnswer text) => ret (Runner.mkRunResult text h)
      | Ok (Runner.ToolCall i) =>
          r <- dispatch i ;;
          run_turns engine limit task turns_left' (h ++ [(i, r)])%list
      end
  end.

(** [runner.run(agent, input, options)] on a runner made by
    [new Runner(config)].  The library takes the turn limit from
    [options.maxTurns] of the call, [DEFAULT_MAX_TURNS] when the call gives
    none; a [maxTurns] key in [config] is not among the configuration it
    reads. *)
Definition run_with_options (engine : Runner.reasoning_engine)
    (options_maxTurns : option Z)
    (config_maxTurns : Js.value) (model : Js.value) (task : string)
  : M Runner.run_result :=
  let limit := match options_maxTurns with
               | Some m => m
               | None => Runner.DEFAULT_MAX_TURNS
               end in
  run_turns engine limit task (Z.to_nat limit) [].

(** [runner.run(automationAgent, task)], the engine's call: it passes no
    options. *)
Definition engine_run (engine : Runner.reasoning_engine)
  : Js.value -> Js.value -> string -> M Runner.run_result :=
  run_with_options engine None.

End Orchestration.

(** ** A simulated browser

    A deterministic stand-in for Playwright on which the engine can be run:
    a page on which exactly the selectors in [matching] resolve, showing
    [doc] under the title [title].  Browsers are numbered as they are
    launched; a page belongs to the browser of the same number and rejects
    every operation once that browser is closed. *)

Module Sim.

Record sim_world : Type := mkWorld {
  launched : nat;
  connected : list nat;
  directories : list string;
  time : Js.date
}.

Definition is_connected (b : nat) (w : sim_world) : bool :=
  existsb (Nat.eqb b) (connected w).

Definition target_closed : exn :=
  Error "Target page, context or browser has been closed".

(** An operation on page [p] that succeeds when [ok] holds. *)
Definition on_page {A} (p : nat) (ok : bool) (a : A) (failure : exn)
    (w : sim_world) : result A * sim_world :=
  if is_connected p w then
    (if ok then Ok a else Throw failure, w)
  else (Throw target_closed, w).

Definition resolves (matching : list string) (selector : string) : bool :=
  existsb (String.eqb selector) matching.

Definition timeout_exceeded : exn := Error "Timeout exceeded".

Definition start : sim_world :=
  mkWorld 0 [] [] (Js.mkDate 2024 1 1 0 0 0 0).

End Sim.

Definition SimEnv (matching : list string) (doc : document) (title : string) : Env := {|
  world := Sim.sim_world;
  browser_handle := nat;
  page_handle := nat;
  fs_existsSync := fun path w => existsb (String.eqb path) (Sim.directories w);
  fs_mkdirSync := fun path _ w =>
    (Ok tt, Sim.mkWorld (Sim.launched w) (Sim.connected w)
              (path :: Sim.directories w) (Sim.time w));
  clock_now := Sim.time;
  chromium_launch := fun _ _ w =>
    (Ok (Sim.launched w),
     Sim.mkWorld (S (Sim.launched w)) (Sim.launched w :: Sim.connected w)
       (Sim.directories w) (Sim.time w));
  browser_newPage := fun b w => Sim.on_page b true b Sim.target_closed w;
  browser_close := fun b w =>
    (Ok tt, Sim.mkWorld (Sim.launched w)
              (filter (fun x => negb (Nat.eqb b x)) (Sim.connected w))
              (Sim.directories w) (Sim.time w));
  browser_isConnected := Sim.is_connected;
  page_goto := fun p _ _ w => Sim.on_page p true tt Sim.target_closed w;
  page_title := fun p w => Sim.on_page p true title Sim.target_closed w;
  page_screenshot := fun p _ _ w => Sim.on_page p true tt Sim.target_closed w;
  page_waitForSelector := fun p selector _ w =>
    Sim.on_page p (Sim.resolves matching selector) tt Sim.timeout_exceeded w;
  page_click := fun p selector w =>
    Sim.on_page p (Sim.resolves matching selector) tt Sim.timeout_exceeded w;
  keyboard_press := fun p _ w => Sim.on_page p true tt Sim.target_closed w;
  page_type := fun p selector _ _ w =>
    Sim.on_page p (Sim.resolves matching selector) tt Sim.timeout_exceeded w;
  page_document := fun p w => Sim.on_page p true doc Sim.target_closed w;
  mouse_wheel := fun p _ _ w => Sim.on_page p true tt Sim.target_closed w
|}.

(** The engine on the simulated browser, from a blank object. *)
Definition sim_blank (matching : list string) (doc : document) (title : string)
  : @state (SimEnv matching doc title) :=
  @mkState (SimEnv matching doc title)
    (@mkEngine (SimEnv matching doc title)
       Js.VUndefined Js.VUndefined Js.VUndefined Js.VUndefined None None)
    Sim.start [].

(** [new WebAutomationEngine()] followed by [initialize()]. *)
Definition sim_ready (matching : list string) (doc : document) (title : string)
  : @state (SimEnv matching doc title) :=
  snd (@initialize (SimEnv matching doc title)
         (snd (@constructor (SimEnv matching doc title) no_options
                 (sim_blank matching doc title)))).

(** ** Vocabulary of the properties *)

Section Vocabulary.

Context {E : Env}.

(** The calls a computation adds to the trace. *)
Definition issues {A} (m : M A) (s : state) (cs : list call) : Prop :=
  calls (snd (m s)) = (calls s ++ cs)%list.

Definition returns {A} (m : M A) (s : state) (a : A) : Prop :=
  fst (m s) = Ok a.

Definition never_throws {A} (m : M A) : Prop :=
  forall s, exists a, fst (m s) = Ok a.

Definition throws {A} (r : result A) : Prop := exists e, r = Throw e.

(** The page [p] is usable while the world satisfies [good], stays so
    under the operations of the selector loops, and resolves exactly the
    selectors that [matches] accepts: waiting for such a selector succeeds,
    and so do clicking it and typing into it; waiting for any other selector
    times out. *)
Record stable_page (p : page_handle) (matches : string -> bool)
    (good : world -> Prop) : Prop := {
  wait_matches : forall sel t w, good w -> matches sel = true ->
    fst (page_waitForSelector p sel t w) = Ok tt;
  wait_times_out : forall sel t w, good w -> matches sel = false ->
    throws (fst (page_waitForSelector p sel t w));
  click_matches : forall sel w, good w -> matches sel = true ->
    fst (page_click p sel w) = Ok tt;
  press_works : forall key w, good w -> fst (keyboard_press p key w) = Ok tt;
  type_matches : forall sel text delay w, good w -> matches sel = true ->
    fst (page_type p sel text delay w) = Ok tt;
  wait_keeps : forall sel t w, good w -> good (snd (page_waitForSelector p sel t w));
  click_keeps : forall sel w, good w -> good (snd (page_click p sel w));
  press_keeps : forall key w, good w -> good (snd (keyboard_press p key w));
  type_keeps : forall sel text delay w, good w ->
    good (snd (page_type p sel text delay w))
}.

(** Waiting for [sel] on [p] fails whatever the timeout and the world. *)
Definition never_resolves (p : page_handle) (sel : string) : Prop :=
  forall t w, throws (fst (page_waitForSelector p sel t w)).




(** The session state, read off the engine and the browser. *)
Inductive session : Type := Uninitialized | Ready | Closed.

Definition session_of (s : state) : session :=
  match browser (this s) with
  | None => Uninitialized
  | Some b => if browser_isConnected b (env s) then Ready else Closed
  end.

(** No page without a browser. *)
Definition well_formed (s : state) : Prop :=
  browser (this s) = None -> page (this s) = None.

(** Playwright on a closed browser: every operation on its page throws and
    leaves it closed. *)
Record closed_rejects (b : browser_handle) (p : page_handle) : Prop := {
  goto_rejected : forall url t w, browser_isConnected b w = false ->
    throws (fst (page_goto p url t w))
    /\ browser_isConnected b (snd (page_goto p url t w)) = false;
  title_rejected : forall w, browser_isConnected b w = false ->
    throws (fst (page_title p w))
    /\ browser_isConnected b (snd (page_title p w)) = false;
  screenshot_rejected : forall path full w, browser_isConnected b w = false ->
    throws (fst (page_screenshot p path full w))
    /\ browser_isConnected b (snd (page_screenshot p path full w)) = false;
  wait_rejected : forall sel t w, browser_isConnected b w = false ->
    throws (fst (page_waitForSelector p sel t w))
    /\ browser_isConnected b (snd (page_waitForSelector p sel t w)) = false;
  click_rejected : forall sel w, browser_isConnected b w = false ->
    throws (fst (page_click p sel w))
    /\ browser_isConnected b (snd (page_click p sel w)) = false;
  press_rejected : forall key w, browser_isConnected b w = false ->
    throws (fst (keyboard_press p key w))
    /\ browser_isConnected b (snd (keyboard_press p key w)) = false;
  type_rejected : forall sel text delay w, browser_isConnected b w = false ->
    throws (fst (page_type p sel text delay w))
    /\ browser_isConnected b (snd (page_type p sel text delay w)) = false;
  document_rejected : forall w, browser_isConnected b w = false ->
    throws (fst (page_document p w))
    /\ browser_isConnected b (snd (page_document p w)) = false;
  wheel_rejected : forall x y w, browser_isConnected b w = false ->
    throws (fst (mouse_wheel p x y w))
    /\ browser_isConnected b (snd (mouse_wheel p x y w)) = false
}.

(** The negative result of each tool but [close_browser]. *)
Definition failure (i : invocation) (r : tool_output) : Prop :=
  match i with
  | OpenBrowser _ => exists msg, r = Text ("Navigation failed: " ++ msg)
  | TakeScreenshot _ => exists msg, r = Text ("Screenshot failed: " ++ msg)
  | ClickElement _ description => r = Text ("Failed to click " ++ description)
  | FillForm fields =>
      r = Text ("Filled 0/" ++ Js.num_to_string (Z.of_nat (List.length fields))
                ++ " form fields")
  | AnalyzeForm =>
      exists msg, r = Structured (AnalysisError ("Form analysis failed: " ++ msg))
  | WaitForElement _ _ => r = Text "No elements found"
  | ScrollPage _ _ => exists msg, r = Text ("Scroll failed: " ++ msg)
  | CloseBrowser => True
  end.

Definition is_close (i : invocation) : bool :=
  match i with CloseBrowser => true | _ => false end.

(** The lifecycle as the specification words it, one property each. *)

(** Closed is terminal: no operation, [initialize] included, leaves it. *)
Definition closed_is_terminal : Prop :=
  forall s, session_of s = Closed ->
    session_of (snd (initialize s)) = Closed.

(** An operation checks connectivity before it attempts to close: whenever
    it calls [browser.close()] it has just asked [isConnected()]. *)
Definition checks_connectivity {A} (m : M A) : Prop :=
  forall s cs, issues m s cs -> In CClose cs ->
    exists before after, cs = (before ++ CIsConnected :: CClose :: after)%list.

(** On a session that is already closed the operation attempts no close. *)
Definition no_close_when_closed {A} (m : M A) : Prop :=
  forall s cs, session_of s = Closed -> issues m s cs -> ~ In CClose cs.

(** The close operation of the tool, as the specification words it. *)
Definition close_checks_connectivity : Prop :=
  checks_connectivity closeBrowser /\ no_close_when_closed closeBrowser.

(** Playwright's contract for [browser.close()]: on a browser that is
    already closed it returns, and a close that returns leaves the browser
    disconnected. *)
Definition close_contract : Prop :=
  (forall b w, browser_isConnected b w = false -> fst (browser_close b w) = Ok tt)
  /\ (forall b w, fst (browser_close b w) = Ok tt ->
        browser_isConnected b (snd (browser_close b w)) = false).

End Vocabulary.

(** The file name as the specification words it: the given name, or
    ["screenshot"] when the name is absent. *)
Definition spec_filename (name : option string) (iso : string) : string :=
  match name with
  | Some n => n
  | None => "screenshot"
  end ++ "-" ++ Js.replace_class Js.colon_or_dot "-" iso ++ ".png".

(** [':'] and ['.'] become ['-'], every other character stays. *)
Definition dashed (c : ascii) : ascii :=
  if Js.colon_or_dot c then "-"%char else c.

(** A page with fifteen visible inputs. *)
Definition fifteen_inputs : document :=
  mkDocument
    (repeat (mkInput true (Some "email") (Some "email") "email" (Some "Your email")
               (Reflected "field wide")) 15)
    [] [].






(** Waiting on [p] for any of [sels] fails while the world satisfies
    [good], and leaves it so. *)
Definition rejecting {E : Env} (p : page_handle) (good : world -> Prop)
    (sels : list string) : Prop :=
  forall sel, In sel sels -> forall t w, good w ->
    throws (fst (page_waitForSelector p sel t w))
    /\ good (snd (page_waitForSelector p sel t w)).

(** The calls that start or end a browser. *)
Definition launch_call (c : call) : bool :=
  match c with
  | CLaunch _ _ | CNewPage => true
  | _ => false
  end.

Definition lifecycle_call (c : call) : bool :=
  (launch_call c || call_eqb_close c)%bool.

(** A computation keeps [this] and issues only calls that pass [allowed]. *)
Definition frame {E : Env} {A} (allowed : call -> bool) (m : M A) : Prop :=
  forall s,
    this (snd (m s)) = this s
    /\ exists cs, calls (snd (m s)) = (calls s ++ cs)%list
                  /\ forallb allowed cs = true.

Definition not_lifecycle (c : call) : bool := negb (lifecycle_call c).

Definition not_launch (c : call) : bool := negb (launch_call c).

(** A reasoning engine that never answers: it asks to scroll, every turn. *)
Definition scroll_forever : Runner.reasoning_engine :=
  fun _ _ => Ok (Runner.ToolCall (ScrollPage down 500)).

Definition is_wheel (c : call) : bool :=
  match c with CWheel _ _ => true | _ => false end.

(** ** The command line *)

Module Cli.

(** The value of a digit character in a radix up to 36. *)
Definition digit_of (radix : Z) (c : ascii) : option Z :=
  let n := Z.of_N (N_of_ascii c) in
  let v := if (48 <=? n) && (n <=? 57) then Some (n - 48)
           else if (97 <=? n) && (n <=? 122) then Some (n - 87)
           else if (65 <=? n) && (n <=? 90) then Some (n - 55)
           else None in
  match v with
  | Some d => if d <? radix then Some d else None
  | None => None
  end.

(** The value of the longest prefix of digits; [None] when there is none. *)
Fixpoint parse_digits (radix : Z) (s : string) (acc : option Z) : option Z :=
  match s with
  | EmptyString => acc
  | String c rest =>
      match digit_of radix c with
      | Some d =>
          parse_digits radix rest
            (Some match acc with Some a => a * radix + d | None => d end)
      | None => acc
      end
  end.

(** [parseInt(s)] without a radix: leading white space, a sign, a [0x]
    prefix for radix 16, then digits; NaN when no digit follows.  The result
    is the integer the digits spell, which is what the program computes as
    long as that integer is at most 2^53 in absolute value; beyond, the
    program rounds to a double and this function is not used. *)
Definition parseInt (s : string) : Js.value :=
  let s1 := Js.trim_start s in
  let signed :=
    match s1 with
    | String "-" r => (true, r)
    | String "+" r => (false, r)
    | _ => (false, s1)
    end in
  let prefixed :=
    match snd signed with
    | String "0" (String "x" r) => (16, r)
    | String "0" (String "X" r) => (16, r)
    | _ => (10, snd signed)
    end in
  match parse_digits (fst prefixed) (snd prefixed) None with
  | None => Js.VNaN
  | Some n => Js.VNum (if fst signed then - n else n)
  end.

(** The options of [automate] as commander hands them to the action. *)
Record automate_options : Type := mkAutomate {
  url : string;
  task : string;
  headless : bool;
  slow : string;
  model : string;
  maxTurns : string;
  timeout : string;
  screenshots : string
}.

(** The defaults commander fills in. *)
Definition automate_defaults (url task : string) : automate_options :=
  mkAutomate url task false "1000" "gpt-4o-mini" "25" "30000" "./screenshots".

(** The object [automate] passes to [new WebAutomationEngine]. *)
Definition engine_options (o : automate_options) : options :=
  {| opt_headless := Js.VBool (headless o);
     opt_slowMo := parseInt (slow o);
     opt_timeout := parseInt (timeout o);
     opt_screenshotPath := Js.VStr (screenshots o) |}.

(** The object [automate] passes to [runAutomation]. *)
Definition run_options (o : automate_options) : run_options :=
  {| opt_model := Js.VStr (model o);
     opt_maxTurns := parseInt (maxTurns o) |}.

(** The object [test] passes to [new WebAutomationEngine]. *)
Definition test_options : options :=
  {| opt_headless := Js.VBool true;
     opt_slowMo := Js.VUndefined;
     opt_timeout := Js.VUndefined;
     opt_screenshotPath := Js.VUndefined |}.

(** How an action ends: it returns, or it calls [process.exit]. *)
Inductive ending (R : Type) : Type :=
| Returned (result : R)
| Exited (code : Z).

Arguments Returned {R} result.
Arguments Exited {R} code.

Definition nl : string := String (ascii_of_nat 10) EmptyString.

(** The text handed to the agent. *)
Definition fullTask (url task : string) : string :=
  nl ++ "Navigate to " ++ url ++ " and complete this task: " ++ task ++ nl
  ++ nl
  ++ "Follow these steps:" ++ nl
  ++ "1. Use open_browser to navigate to " ++ url ++ nl
  ++ "2. Take a screenshot to see the initial page" ++ nl
  ++ "3. Use analyze_form to understand the page structure" ++ nl
  ++ "4. Complete the requested task: " ++ task ++ nl
  ++ "5. Take a final screenshot to verify completion" ++ nl
  ++ "6. Close the browser" ++ nl
  ++ nl
  ++ "Be thorough and adaptive to the website's specific structure. Use multiple selector strategies for reliability." ++ nl
  ++ "            ".

End Cli.

Section Actions.

Context {E : Env}.

(** The action of [automate]; [run] is [Runner.run] as in [runAutomation]. *)
Definition automate {R : Type} (run : Js.value -> Js.value -> string -> M R)
    (o : Cli.automate_options) : M (Cli.ending R) :=
  try_catch
    (constructor (Cli.engine_options o) ;;
     initialize ;;
     result <- runAutomation run (Cli.fullTask (Cli.url o) (Cli.task o))
                 (Cli.run_options o) ;;
     ret (Cli.Returned result))
    (fun error => ret (Cli.Exited 1)).

(** The action of [test]; [api_key] is [process.env.OPENAI_API_KEY]. *)
Definition test (api_key : Js.value) : M (Cli.ending unit) :=
  try_catch
    (if negb (Js.truthy api_key) then ret (Cli.Returned tt)
     else
       constructor Cli.test_options ;;
       initialize ;;
       cleanup ;;
       ret (Cli.Returned tt))
    (fun error => ret (Cli.Exited 1)).

End Actions.

(** ** More vocabulary *)

Section MoreVocabulary.

Context {E : Env}.

(** A page on which waiting succeeds for the selectors in [present] and
    clicking for those in [clickable], while the world satisfies [good]. *)
Record selective_page (p : page_handle) (present clickable : string -> bool)
    (good : world -> Prop) : Prop := {
  sp_wait_ok : forall sel t w, good w -> present sel = true ->
    fst (page_waitForSelector p sel t w) = Ok tt;
  sp_wait_fails : forall sel t w, good w -> present sel = false ->
    throws (fst (page_waitForSelector p sel t w));
  sp_click_ok : forall sel w, good w -> clickable sel = true ->
    fst (page_click p sel w) = Ok tt;
  sp_click_fails : forall sel w, good w -> clickable sel = false ->
    throws (fst (page_click p sel w));
  sp_wait_keeps : forall sel t w, good w ->
    good (snd (page_waitForSelector p sel t w));
  sp_click_keeps : forall sel w, good w -> good (snd (page_click p sel w))
}.

(** The calls of [click_element] on such a page. *)
Fixpoint click_trace (present clickable : string -> bool) (sels : list string)
  : list call :=
  match sels with
  | [] => []
  | sel :: rest =>
      if present sel then
        if clickable sel then [CWaitForSelector sel 3000; CClick sel]
        else CWaitForSelector sel 3000 :: CClick sel
               :: click_trace present clickable rest
      else CWaitForSelector sel 3000 :: click_trace present clickable rest
  end.

(** The first candidate that is both found and clicked. *)
Definition first_clicked (present clickable : string -> bool) (sels : list string)
  : option string :=
  find (fun sel => present sel && clickable sel)%bool sels.

(** The candidates up to and including the first that passes [f]. *)
Fixpoint up_to (f : string -> bool) (sels : list string) : list string :=
  match sels with
  | [] => []
  | sel :: rest => if f sel then [sel] else sel :: up_to f rest
  end.

(** Calls that act on the page as a user would. *)
Definition input_call (c : call) : bool :=
  match c with
  | CClick _ | CPress _ | CType _ _ _ => true
  | _ => false
  end.

Definition not_input (c : call) : bool := negb (input_call c).

Definition acts_on_page (i : invocation) : bool :=
  match i with
  | ClickElement _ _ | FillForm _ => true
  | _ => false
  end.


End MoreVocabulary.

(** A machine on which no browser can be launched. *)
Definition BrokenEnv : Env := {|
  world := unit;
  browser_handle := Empty_set;
  page_handle := Empty_set;
  fs_existsSync := fun _ _ => true;
  fs_mkdirSync := fun _ _ w => (Ok tt, w);
  clock_now := fun _ => Js.mkDate 2024 1 1 0 0 0 0;
  chromium_launch := fun _ _ w => (Throw (Error "Executable doesn't exist"), w);
  browser_newPage := fun b _ => match b with end;
  browser_close := fun b _ => match b with end;
  browser_isConnected := fun b _ => match b with end;
  page_goto := fun p _ _ _ => match p with end;
  page_title := fun p _ => match p with end;
  page_screenshot := fun p _ _ _ => match p with end;
  page_waitForSelector := fun p _ _ _ => match p with end;
  page_click := fun p _ _ => match p with end;
  keyboard_press := fun p _ _ => match p with end;
  page_type := fun p _ _ _ _ => match p with end;
  page_document := fun p _ => match p with end;
  mouse_wheel := fun p _ _ _ => match p with end
|}.

Definition broken_blank : @state BrokenEnv :=
  @mkState BrokenEnv
    (@mkEngine BrokenEnv Js.VUndefined Js.VUndefined Js.VUndefined Js.VUndefined
       None None)
    tt [].

(** A page on which the selectors in [found] appear but only those in
    [enabled] take a click; the rest of the browser always obliges. *)
Definition CoveredEnv (found enabled : list string) : Env := {|
  world := unit;
  browser_handle := unit;
  page_handle := unit;
  fs_existsSync := fun _ _ => true;
  fs_mkdirSync := fun _ _ w => (Ok tt, w);
  clock_now := fun _ => Js.mkDate 2024 1 1 0 0 0 0;
  chromium_launch := fun _ _ w => (Ok tt, w);
  browser_newPage := fun _ w => (Ok tt, w);
  browser_close := fun _ w => (Ok tt, w);
  browser_isConnected := fun _ _ => true;
  page_goto := fun _ _ _ w => (Ok tt, w);
  page_title := fun _ w => (Ok EmptyString, w);
  page_screenshot := fun _ _ _ w => (Ok tt, w);
  page_waitForSelector := fun _ selector _ w =>
    (if Sim.resolves found selector then Ok tt else Throw Sim.timeout_exceeded, w);
  page_click := fun _ selector w =>
    (if Sim.resolves enabled selector then Ok tt else Throw Sim.timeout_exceeded, w);
  keyboard_press := fun _ _ w => (Ok tt, w);
  page_type := fun _ _ _ _ w => (Ok tt, w);
  page_document := fun _ w => (Ok (mkDocument [] [] []), w);
  mouse_wheel := fun _ _ _ w => (Ok tt, w)
|}.

Definition covered_ready (found enabled : list string)
  : @state (CoveredEnv found enabled) :=
  snd (@initialize (CoveredEnv found enabled)
         (@mkState (CoveredEnv found enabled)
            (@mkEngine (CoveredEnv found enabled)
               Js.VUndefined Js.VUndefined Js.VUndefined Js.VUndefined None None)
            tt [])).

(** No space occurs in [s]. *)
Definition no_space (s : string) : bool :=
  forallb (fun c => negb (Ascii.eqb c " ")) (list_ascii_of_string s).

(** Neither [':'] nor ['.'] occurs in [s]. *)
Definition no_colon_or_dot (s : string) : bool :=
  forallb (fun c => negb (Js.colon_or_dot c)) (list_ascii_of_string s).

(** * Properties *)

(** ** The monad and the calls *)

Section Basics.

Context {E : Env}.

Lemma waitForSelector_on_page (s : state) (p : page_handle) (sel : string) (t : Z) :
  page (this s) = Some p ->
  waitForSelector sel t s =
    (fst (page_waitForSelector p sel t (env s)),
     mkState (this s) (snd (page_waitForSelector p sel t (env s)))
       (calls s ++ [CWaitForSelector sel t])).
Proof.
  intros Hp. unfold waitForSelector, the_page, bind, get_this, perform, ret.
  rewrite Hp. simpl. destruct (page_waitForSelector p sel t (env s)); reflexivity.
Qed.

Lemma click_on_page (s : state) (p : page_handle) (sel : string) :
  page (this s) = Some p ->
  click sel s =
    (fst (page_click p sel (env s)),
     mkState (this s) (snd (page_click p sel (env s))) (calls s ++ [CClick sel])).
Proof.
  intros Hp. unfold click, the_page, bind, get_this, perform, ret.
  rewrite Hp. simpl. destruct (page_click p sel (env s)); reflexivity.
Qed.



Lemma the_page_some (s : state) (p : page_handle) (prop : string) :
  page (this s) = Some p -> the_page prop s = (Ok p, s).
Proof.
  intros Hp. unfold the_page, bind, get_this, ret. rewrite Hp. reflexivity.
Qed.

Lemma the_page_none (s : state) (prop : string) :
  page (this s) = None -> the_page prop s = (Throw (null_property prop), s).
Proof.
  intros Hp. unfold the_page, bind, get_this, throw. rewrite Hp. reflexivity.
Qed.

(** Without a page the call is never made. *)
Lemma waitForSelector_no_page (s : state) (sel : string) (t : Z) :
  page (this s) = None ->
  waitForSelector sel t s = (Throw (null_property "waitForSelector"), s).
Proof.
  intros Hp. unfold waitForSelector, the_page, bind, get_this, throw.
  rewrite Hp. reflexivity.
Qed.

Lemma constructor_this (o : options) (s : state) :
  this (snd (constructor o s)) =
    {| headless := Js.or (opt_headless o) (Js.VBool false);
       slowMo := Js.or (opt_slowMo o) (Js.VNum 1000);
       timeout := Js.or (opt_timeout o) (Js.VNum 30000);
       screenshotPath := Js.or (opt_screenshotPath o) (Js.VStr "./screenshots");
       browser := None;
       page := None |}.
Proof.
  unfold constructor, bind, set_this, get_this, query, perform, ret. simpl.
  destruct (negb _); [|reflexivity].
  destruct (fs_mkdirSync _ _ _); reflexivity.
Qed.

End Basics.

(** ** Strings *)

Lemma or_falsy (a d : Js.value) : Js.truthy a = false -> Js.or a d = d.
Proof. unfold Js.or. intros ->. reflexivity. Qed.

Lemma or_truthy (a d : Js.value) : Js.truthy a = true -> Js.or a d = a.
Proof. unfold Js.or. intros ->. reflexivity. Qed.

Lemma or_truthy_default (a d : Js.value) :
  Js.truthy d = true -> Js.truthy (Js.or a d) = true.
Proof.
  intros Hd. unfold Js.or. destruct (Js.truthy a) eqn:Ha; assumption.
Qed.

Lemma replace_class_dashed (s : string) :
  Js.replace_class Js.colon_or_dot "-" s =
    string_of_list_ascii (map dashed (list_ascii_of_string s)).
Proof.
  induction s as [|c s IH]; simpl; [reflexivity|].
  unfold dashed at 1. destruct (Js.colon_or_dot c); simpl; rewrite IH; reflexivity.
Qed.

Lemma dashed_not_colon_or_dot (c : ascii) : Js.colon_or_dot (dashed c) = false.
Proof.
  unfold dashed. destruct (Js.colon_or_dot c) eqn:H; [reflexivity | exact H].
Qed.

Lemma substring0_length (n : nat) (s : string) :
  (String.length (Js.substring0 n s) <= n)%nat.
Proof.
  unfold Js.substring0. revert s.
  induction n as [|n IH]; intros [|c s]; simpl; try lia.
  specialize (IH s). lia.
Qed.

Lemma str_or_empty (s : string) : Js.str_or s EmptyString = s.
Proof. destruct s; reflexivity. Qed.

Lemma firstn_filter_length {A} (f : A -> bool) (k : nat) (l : list A) :
  List.length (firstn k (filter f l)) = Nat.min k (List.length (filter f l)).
Proof. apply length_firstn. Qed.

Lemma In_firstn_filter {A} (f : A -> bool) (k : nat) (l : list A) (x : A) :
  In x (firstn k (filter f l)) -> In x l /\ f x = true.
Proof.
  intros H. apply filter_In.
  rewrite <- (firstn_skipn k (filter f l)). apply in_or_app. left. exact H.
Qed.

(** ** Constructor defaults *)

(** C10: a falsy [slowMo], [timeout] or [screenshotPath] option is replaced
    by its default (1000, 30000, ['./screenshots']); in particular 0 gives
    1000 and 30000, and no options object makes [slowMo] or [timeout] 0. *)
Theorem constructor_falsy_defaults {E : Env} (o : options) (s : state) :
  let this' := this (snd (constructor o s)) in
  (Js.truthy (opt_slowMo o) = false -> slowMo this' = Js.VNum 1000) /\
  (Js.truthy (opt_timeout o) = false -> timeout this' = Js.VNum 30000) /\
  (Js.truthy (opt_screenshotPath o) = false ->
     screenshotPath this' = Js.VStr "./screenshots") /\
  (opt_slowMo o = Js.VNum 0 -> slowMo this' = Js.VNum 1000) /\
  (opt_timeout o = Js.VNum 0 -> timeout this' = Js.VNum 30000) /\
  slowMo this' <> Js.VNum 0 /\
  timeout this' <> Js.VNum 0.
Proof.
  cbv zeta. rewrite constructor_this. simpl.
  repeat split.
  - apply or_falsy.
  - apply or_falsy.
  - apply or_falsy.
  - intros ->. reflexivity.
  - intros ->. reflexivity.
  - intros H. pose proof (or_truthy_default (opt_slowMo o) (Js.VNum 1000) eq_refl) as T.
    rewrite H in T. discriminate.
  - intros H. pose proof (or_truthy_default (opt_timeout o) (Js.VNum 30000) eq_refl) as T.
    rewrite H in T. discriminate.
Qed.

Lemma constructor_falsy_defaults_witness :
  let E := SimEnv [] (mkDocument [] [] []) EmptyString in
  let o := mkOptions (Js.VBool true) (Js.VNum 0) (Js.VNum 0) (Js.VStr EmptyString) in
  let this' := this (snd (@constructor E o (sim_blank [] (mkDocument [] [] []) EmptyString))) in
  slowMo this' = Js.VNum 1000 /\ timeout this' = Js.VNum 30000
  /\ screenshotPath this' = Js.VStr "./screenshots".
Proof.
  intros E o.
  destruct (@constructor_falsy_defaults E o (sim_blank [] (mkDocument [] [] []) EmptyString))
    as (H1 & H2 & H3 & _).
  split; [apply H1; reflexivity | split; [apply H2; reflexivity | apply H3; reflexivity]].
Defined.

(** ** scroll_page *)

(** C5: [scroll_page] turns a direction and an amount [a] into the wheel
    delta down (0, a), up (0, -a), right (a, 0), left (-a, 0), and issues
    exactly that one wheel call. *)
Theorem scrollPage_delta {E : Env} (s : state) (p : page_handle)
    (d : direction) (a : Z) :
  page (this s) = Some p ->
  scrollMap a down = (0, a) /\
  scrollMap a up = (0, - a) /\
  scrollMap a right = (a, 0) /\
  scrollMap a left = (- a, 0) /\
  scrollMap 500 down = (0, 500) /\
  scrollMap 300 left = (-300, 0) /\
  scrollMap 200 up = (0, -200) /\
  scrollMap 400 right = (400, 0) /\
  issues (scrollPage d a) s [CWheel (fst (scrollMap a d)) (snd (scrollMap a d))].
Proof.
  intros Hp. repeat (split; [reflexivity|]).
  unfold issues, scrollPage. destruct (scrollMap a d) as [x y].
  unfold try_catch, bind. rewrite (the_page_some s p _ Hp).
  unfold perform, ret.
  destruct (mouse_wheel p x y (env s)) as [[[]|e] w]; reflexivity.
Qed.

Lemma scrollPage_delta_witness :
  let E := SimEnv [] (mkDocument [] [] []) EmptyString in
  @issues E _ (@scrollPage E left 300) (sim_ready [] (mkDocument [] [] []) EmptyString)
    [CWheel (-300) 0].
Proof.
  intros E.
  apply (@scrollPage_delta E (sim_ready [] (mkDocument [] [] []) EmptyString)
           0%nat left 300).
  reflexivity.
Defined.

(** ** take_screenshot *)

(** C6, as the specification words it, fails for the empty name: the file
    is then called [screenshot-...], not [-...]. *)
Lemma takeScreenshot_empty_name :
  let E := SimEnv [] (mkDocument [] [] []) EmptyString in
  let s := sim_ready [] (mkDocument [] [] []) EmptyString in
  fst (@takeScreenshot E (Some EmptyString) s)
    = Ok "Screenshot saved as screenshot-2024-01-01T00-00-00-000Z.png"
  /\ fst (@takeScreenshot E (Some EmptyString) s)
    <> Ok ("Screenshot saved as "
           ++ spec_filename (Some EmptyString) (Js.toISOString (clock_now (env s)))).
Proof.
  split; [reflexivity | vm_compute; discriminate].
Qed.

(** C6, amended: the file name is the name when it is a non-empty string,
    and ["screenshot"] when it is null or empty, then a hyphen, the ISO
    timestamp with [':'] and ['.'] turned into ['-'], and [.png]; the capture
    is taken with [fullPage: false] under the screenshot directory, and when
    it succeeds the tool returns ["Screenshot saved as <file name>"]. *)
Theorem takeScreenshot_names_file {E : Env} (s : state) (p : page_handle)
    (name : option string) :
  let iso := Js.toISOString (clock_now (env s)) in
  let filename := screenshot_filename name iso in
  let path := Js.to_string (screenshotPath (this s)) ++ "/" ++ filename in
  page (this s) = Some p ->
  fst (page_screenshot p path false (env s)) = Ok tt ->
  returns (takeScreenshot name) s ("Screenshot saved as " ++ filename) /\
  issues (takeScreenshot name) s [CNow; CScreenshot path false] /\
  filename =
    match name with
    | Some (String c n) => String c n
    | Some EmptyString | None => "screenshot"
    end ++ "-" ++ string_of_list_ascii (map dashed (list_ascii_of_string iso)) ++ ".png" /\
  (name = Some "signup" -> iso = "2024-01-01T00:00:00.000Z" ->
   filename = "signup-2024-01-01T00-00-00-000Z.png").
Proof.
  intros iso filename path Hp Hshot.
  assert (Hrun : takeScreenshot name s =
            (Ok ("Screenshot saved as " ++ filename),
             mkState (this s) (snd (page_screenshot p path false (env s)))
               ((calls s ++ [CNow]) ++ [CScreenshot path false]))).
  { unfold takeScreenshot, try_catch, bind, query.
    erewrite the_page_some by exact Hp. unfold get_this, perform, ret.
    cbn [this env calls]. fold iso. fold filename. fold path.
    destruct (page_screenshot p path false (env s)) as [r w].
    cbn [fst] in Hshot. subst r. reflexivity. }
  unfold returns, issues. rewrite Hrun. cbn [fst snd calls].
  split; [reflexivity|]. split; [rewrite <- app_assoc; reflexivity|]. split.
  - unfold filename, screenshot_filename. rewrite replace_class_dashed.
    destruct name as [[|c n]|]; reflexivity.
  - intros Hn Hiso. unfold filename. rewrite Hn, Hiso. reflexivity.
Qed.

Lemma takeScreenshot_names_file_witness :
  let E := SimEnv [] (mkDocument [] [] []) EmptyString in
  @returns E _ (@takeScreenshot E (Some "signup"))
    (sim_ready [] (mkDocument [] [] []) EmptyString)
    "Screenshot saved as signup-2024-01-01T00-00-00-000Z.png".
Proof.
  intros E.
  apply (@takeScreenshot_names_file E (sim_ready [] (mkDocument [] [] []) EmptyString)
           0%nat (Some "signup")); reflexivity.
Defined.

(** ** analyze_form *)

Lemma map_result_ok {A B : Type} (f : A -> result B) (l : list A) (l' : list B) :
  map_result f l = Ok l' -> Forall2 (fun x y => f x = Ok y) l l'.
Proof.
  revert l'. induction l as [|x rest IH]; intros l' H; cbn [map_result] in H.
  - inversion H. constructor.
  - destruct (f x) as [y|e] eqn:Hx; [|discriminate].
    destruct (map_result f rest) as [ys|e]; [|discriminate].
    inversion H. constructor; [exact Hx | apply IH; reflexivity].
Qed.



Lemma Forall_firstn_filter {A : Type} (f : A -> bool) (k : nat) (l : list A) :
  Forall (fun x => In x l /\ f x = true) (firstn k (filter f l)).
Proof. apply Forall_forall. intros x. apply In_firstn_filter. Qed.

Lemma formAnalysis_ok (d : document) (a : form_analysis) :
  formAnalysis d = Ok a ->
  map_result summarize_input (firstn 10 (filter in_visible (q_inputs d)))
    = Ok (inputs a)
  /\ map_result summarize_button (firstn 5 (filter bt_visible (q_buttons d)))
     = Ok (buttons a)
  /\ map_result summarize_link (firstn 10 (filter link_shown (q_links d)))
     = Ok (links a).
Proof.
  unfold formAnalysis.
  destruct (map_result summarize_input _) as [ins|e]; [|discriminate].
  destruct (map_result summarize_button _) as [bs|e]; [|discriminate].
  destruct (map_result summarize_link _) as [ls|e]; [|discriminate].
  intros H. inversion H. auto.
Qed.










(** ** Selector fallback *)

Lemma try_catch_never_throws {E : Env} {A} (m : M A) (h : exn -> M A) :
  (forall e, never_throws (h e)) -> never_throws (try_catch m h).
Proof.
  intros Hh s. unfold try_catch.
  destruct (m s) as [[a|e] s'].
  - exists a. reflexivity.
  - apply Hh.
Qed.

Lemma clickElement_never_throws {E : Env} (selectors : list string) (description : string) :
  never_throws (clickElement selectors description).
Proof.
  unfold clickElement.
  induction selectors as [|sel rest IH]; cbn [clickElement_from].
  - intros s. eexists. reflexivity.
  - apply try_catch_never_throws. intros _. exact IH.
Qed.

Lemma waitForElement_never_throws {E : Env} (selectors : list string) (t : Z) :
  never_throws (waitForElement selectors t).
Proof.
  induction selectors as [|sel rest IH]; cbn [waitForElement].
  - intros s. eexists. reflexivity.
  - apply try_catch_never_throws. intros _. exact IH.
Qed.

Lemma fill_field_never_throws {E : Env} (f : form_field) (sels : list string) :
  never_throws (fill_field f sels).
Proof.
  induction sels as [|sel rest IH]; cbn [fill_field].
  - intros s. eexists. reflexivity.
  - apply try_catch_never_throws. intros _. exact IH.
Qed.

Lemma fill_fields_never_throws {E : Env} (fields : list form_field) (n : Z) :
  never_throws (fill_fields fields n).
Proof.
  revert n. induction fields as [|f rest IH]; intros n s; cbn [fill_fields].
  - eexists. reflexivity.
  - unfold bind. destruct (fill_field_never_throws f (selectors f) s) as [b Hb].
    destruct (fill_field f (selectors f) s) as [r s']. cbn [fst] in Hb. subst r.
    apply IH.
Qed.

Lemma fillForm_never_throws {E : Env} (fields : list form_field) :
  never_throws (fillForm fields).
Proof.
  intros s. unfold fillForm, bind.
  destruct (fill_fields_never_throws fields 0 s) as [n Hn].
  destruct (fill_fields fields 0 s) as [r s']. cbn [fst] in Hn. subst r.
  eexists. reflexivity.
Qed.

(** A list with exactly one element that passes [f] splits around it. *)
Lemma single_match_split {A} (f : A -> bool) (l : list A) :
  List.length (filter f l) = 1%nat ->
  exists pre x post,
    l = (pre ++ x :: post)%list /\ f x = true /\
    Forall (fun y => f y = false) pre /\ Forall (fun y => f y = false) post.
Proof.
  induction l as [|a l IH]; cbn [filter]; [discriminate|].
  destruct (f a) eqn:Ha; cbn [List.length]; intros H.
  - exists [], a, l. repeat split; auto.
    apply Forall_forall. intros y Hy.
    destruct (f y) eqn:Hfy; [|reflexivity].
    assert (In y (filter f l)) as Hin by (apply filter_In; auto).
    destruct (filter f l); [destruct Hin | discriminate].
  - destruct (IH H) as (pre & x & post & -> & Hx & Hpre & Hpost).
    exists (a :: pre), x, post. repeat split; auto.
Qed.

Section Resolution.

Context {E : Env}.
Variable p : page_handle.
Variable matches : string -> bool.
Variable good : world -> Prop.
Hypothesis stable : stable_page p matches good.

(** The loop moves on from a candidate whose wait fails. *)
Lemma clickElement_next (s : state) (d sel : string) (rest : list string) :
  page (this s) = Some p ->
  throws (fst (page_waitForSelector p sel 3000 (env s))) ->
  clickElement_from d (sel :: rest) s =
    clickElement_from d rest
      (mkState (this s) (snd (page_waitForSelector p sel 3000 (env s)))
         (calls s ++ [CWaitForSelector sel 3000])).
Proof.
  intros Hp [e He]. cbn [clickElement_from]. unfold try_catch, bind.
  rewrite (waitForSelector_on_page s p sel 3000 Hp). rewrite He. reflexivity.
Qed.

(** It stops at a candidate that is found and clicked. *)
Lemma clickElement_hit (s : state) (d sel : string) (rest : list string) :
  page (this s) = Some p -> good (env s) -> matches sel = true ->
  fst (clickElement_from d (sel :: rest) s)
    = Ok ("Successfully clicked " ++ d ++ " using " ++ sel)
  /\ calls (snd (clickElement_from d (sel :: rest) s))
    = (calls s ++ [CWaitForSelector sel 3000; CClick sel])%list.
Proof.
  intros Hp Hg Hm. cbn [clickElement_from]. unfold try_catch, bind.
  rewrite (waitForSelector_on_page s p sel 3000 Hp).
  rewrite (wait_matches p matches good stable sel 3000 (env s) Hg Hm).
  erewrite click_on_page by exact Hp. cbn [env this calls].
  rewrite (click_matches p matches good stable sel _
             (wait_keeps p matches good stable sel 3000 (env s) Hg) Hm).
  unfold ret. cbn [fst snd calls]. rewrite <- app_assoc. split; reflexivity.
Qed.

Lemma clickElement_first_match (d sel : string) (post pre : list string) (s : state) :
  page (this s) = Some p -> good (env s) ->
  Forall (fun x => matches x = false) pre -> matches sel = true ->
  fst (clickElement_from d (pre ++ sel :: post) s)
    = Ok ("Successfully clicked " ++ d ++ " using " ++ sel)
  /\ calls (snd (clickElement_from d (pre ++ sel :: post) s))
    = (calls s ++ map (fun x => CWaitForSelector x 3000) pre
         ++ [CWaitForSelector sel 3000; CClick sel])%list.
Proof.
  revert s. induction pre as [|x pre IH]; intros s Hp Hg Hpre Hm.
  - apply clickElement_hit; assumption.
  - inversion Hpre as [|? ? Hx Hpre']; subst.
    cbn [app]. rewrite clickElement_next;
      [|exact Hp|exact (wait_times_out p matches good stable x 3000 (env s) Hg Hx)].
    destruct (IH (mkState (this s) (snd (page_waitForSelector p x 3000 (env s)))
                    (calls s ++ [CWaitForSelector x 3000]))) as [Hr Hc];
      [exact Hp | exact (wait_keeps p matches good stable x 3000 (env s) Hg)
       | exact Hpre' | exact Hm |].
    split; [exact Hr|]. rewrite Hc. cbn [calls map]. rewrite <- app_assoc. reflexivity.
Qed.



End Resolution.




(** The simulated page is stable while its browser is connected. *)
Lemma sim_stable_page (matching : list string) (doc : document) (title : string)
    (b : nat) :
  @stable_page (SimEnv matching doc title) b (Sim.resolves matching)
    (fun w => Sim.is_connected b w = true).
Proof.
  constructor; cbn; unfold Sim.on_page; intros;
    repeat match goal with
           | H : Sim.is_connected _ _ = true |- _ => rewrite H
           | H : Sim.resolves _ _ = _ |- _ => rewrite H
           end; cbn; try reflexivity; try assumption.
  - eexists. reflexivity.
Qed.

(** C1: when exactly one candidate matches, [click_element] waits for the
    candidates in list order up to that one, clicks it, reports it, and
    looks at no later candidate: the click is issued exactly once. *)
Theorem clickElement_single_match {E : Env} (p : page_handle)
    (matches : string -> bool) (good : world -> Prop)
    (s : state) (selectors : list string) (description : string) :
  stable_page p matches good ->
  page (this s) = Some p ->
  good (env s) ->
  List.length (filter matches selectors) = 1%nat ->
  exists pre sel post,
    selectors = (pre ++ sel :: post)%list /\
    matches sel = true /\
    Forall (fun x => matches x = false) pre /\
    Forall (fun x => matches x = false) post /\
    returns (clickElement selectors description) s
      ("Successfully clicked " ++ description ++ " using " ++ sel) /\
    issues (clickElement selectors description) s
      (map (fun x => CWaitForSelector x 3000) pre
         ++ [CWaitForSelector sel 3000; CClick sel]) /\
    (forall cs, issues (clickElement selectors description) s cs ->
       filter call_eqb_click cs = [CClick sel]).
Proof.
  intros Hst Hp Hg H1.
  destruct (single_match_split matches selectors H1)
    as (pre & sel & post & -> & Hm & Hpre & Hpost).
  exists pre, sel, post.
  destruct (clickElement_first_match p matches good Hst description sel post pre s
              Hp Hg Hpre Hm) as [Hr Hc].
  repeat split; try assumption.
  intros cs Hcs. unfold issues, clickElement in Hcs. rewrite Hc in Hcs.
  apply app_inv_head in Hcs. subst cs.
  rewrite filter_app. cbn [filter call_eqb_click].
  replace (filter call_eqb_click (map (fun x => CWaitForSelector x 3000) pre))
    with (@nil call); [reflexivity|].
  clear. induction pre as [|x pre IH]; [reflexivity | exact IH].
Qed.

(** Scenario A: ["#missing"] then ["button.submit"] on a page that has the
    button. *)
Lemma clickElement_single_match_witness :
  let E := SimEnv ["button.submit"] (mkDocument [] [] []) EmptyString in
  let s := sim_ready ["button.submit"] (mkDocument [] [] []) EmptyString in
  exists pre sel post,
    ["#missing"; "button.submit"] = (pre ++ sel :: post)%list /\
    @returns E _ (@clickElement E ["#missing"; "button.submit"] "the submit button") s
      ("Successfully clicked the submit button using " ++ sel).
Proof.
  intros E s.
  destruct (@clickElement_single_match E 0%nat (Sim.resolves ["button.submit"])
              (fun w => Sim.is_connected 0 w = true) s
              ["#missing"; "button.submit"] "the submit button"
              (sim_stable_page ["button.submit"] (mkDocument [] [] []) EmptyString 0)
              eq_refl eq_refl eq_refl)
    as (pre & sel & post & Hsplit & _ & _ & _ & Hr & _).
  exists pre, sel, post. split; [exact Hsplit | exact Hr].
Defined.



(** ** Exhaustion *)

Section Rejection.

Context {E : Env}.
Variable p : page_handle.
Variable good : world -> Prop.

Lemma clickElement_rejected (d : string) (sels : list string) (s : state) :
  page (this s) = Some p -> good (env s) -> rejecting p good sels ->
  fst (clickElement_from d sels s) = Ok ("Failed to click " ++ d)
  /\ calls (snd (clickElement_from d sels s))
     = (calls s ++ map (fun x => CWaitForSelector x 3000) sels)%list
  /\ this (snd (clickElement_from d sels s)) = this s
  /\ good (env (snd (clickElement_from d sels s))).
Proof.
  revert s. induction sels as [|sel rest IH]; intros s Hp Hg Hrej.
  - cbn. rewrite app_nil_r. auto.
  - cbn [clickElement_from]. unfold try_catch, bind.
    rewrite (waitForSelector_on_page s p sel 3000 Hp).
    destruct (Hrej sel (or_introl eq_refl) 3000 (env s) Hg) as [[e He] Hg1].
    rewrite He.
    destruct (IH (mkState (this s) (snd (page_waitForSelector p sel 3000 (env s)))
                    (calls s ++ [CWaitForSelector sel 3000])) Hp Hg1)
      as (Hr & Hc & Ht & Hgood).
    { intros x Hx. apply Hrej. right. exact Hx. }
    repeat split; try assumption.
    rewrite Hc. cbn [calls map]. rewrite <- app_assoc. reflexivity.
Qed.

Lemma waitForElement_rejected (t : Z) (sels : list string) (s : state) :
  page (this s) = Some p -> good (env s) -> rejecting p good sels ->
  fst (waitForElement sels t s) = Ok "No elements found"
  /\ calls (snd (waitForElement sels t s))
     = (calls s ++ map (fun x => CWaitForSelector x t) sels)%list
  /\ this (snd (waitForElement sels t s)) = this s
  /\ good (env (snd (waitForElement sels t s))).
Proof.
  revert s. induction sels as [|sel rest IH]; intros s Hp Hg Hrej.
  - cbn. rewrite app_nil_r. auto.
  - cbn [waitForElement]. unfold try_catch, bind.
    rewrite (waitForSelector_on_page s p sel t Hp).
    destruct (Hrej sel (or_introl eq_refl) t (env s) Hg) as [[e He] Hg1].
    rewrite He.
    destruct (IH (mkState (this s) (snd (page_waitForSelector p sel t (env s)))
                    (calls s ++ [CWaitForSelector sel t])) Hp Hg1)
      as (Hr & Hc & Ht & Hgood).
    { intros x Hx. apply Hrej. right. exact Hx. }
    repeat split; try assumption.
    rewrite Hc. cbn [calls map]. rewrite <- app_assoc. reflexivity.
Qed.

Lemma fill_field_rejected (f : form_field) (sels : list string) (s : state) :
  page (this s) = Some p -> good (env s) -> rejecting p good sels ->
  fst (fill_field f sels s) = Ok false
  /\ this (snd (fill_field f sels s)) = this s
  /\ good (env (snd (fill_field f sels s))).
Proof.
  revert s. induction sels as [|sel rest IH]; intros s Hp Hg Hrej.
  - cbn. auto.
  - cbn [fill_field]. unfold try_catch, bind.
    rewrite (waitForSelector_on_page s p sel 2000 Hp).
    destruct (Hrej sel (or_introl eq_refl) 2000 (env s) Hg) as [[e He] Hg1].
    rewrite He.
    apply (IH (mkState (this s) (snd (page_waitForSelector p sel 2000 (env s)))
                 (calls s ++ [CWaitForSelector sel 2000])) Hp Hg1).
    intros x Hx. apply Hrej. right. exact Hx.
Qed.

Lemma fill_fields_rejected (fields : list form_field) (n : Z) (s : state) :
  page (this s) = Some p -> good (env s) ->
  (forall f, In f fields -> rejecting p good (selectors f)) ->
  fst (fill_fields fields n s) = Ok n
  /\ this (snd (fill_fields fields n s)) = this s
  /\ good (env (snd (fill_fields fields n s))).
Proof.
  revert s. induction fields as [|f rest IH]; intros s Hp Hg Hrej.
  - cbn. auto.
  - cbn [fill_fields]. unfold bind.
    destruct (fill_field_rejected f (selectors f) s Hp Hg
                (Hrej f (or_introl eq_refl))) as (Hr & Ht & Hgood).
    destruct (fill_field f (selectors f) s) as [r s1]. cbn [fst snd] in *. subst r.
    destruct (IH s1) as (Hr' & Ht' & Hgood').
    + rewrite Ht. exact Hp.
    + exact Hgood.
    + intros x Hx. apply Hrej. right. exact Hx.
    + repeat split; try assumption. rewrite Ht'. exact Ht.
Qed.

End Rejection.

(** Without a page every candidate fails on the spot. *)
Lemma clickElement_no_page {E : Env} (d : string) (sels : list string) (s : state) :
  page (this s) = None ->
  clickElement_from d sels s = (Ok ("Failed to click " ++ d), s).
Proof.
  intros Hp. induction sels as [|sel rest IH]; [reflexivity|].
  cbn [clickElement_from]. unfold try_catch, bind.
  rewrite (waitForSelector_no_page s sel 3000 Hp). exact IH.
Qed.

Lemma waitForElement_no_page {E : Env} (t : Z) (sels : list string) (s : state) :
  page (this s) = None ->
  waitForElement sels t s = (Ok "No elements found", s).
Proof.
  intros Hp. induction sels as [|sel rest IH]; [reflexivity|].
  cbn [waitForElement]. unfold try_catch, bind.
  rewrite (waitForSelector_no_page s sel t Hp). exact IH.
Qed.

Lemma fill_field_no_page {E : Env} (f : form_field) (sels : list string) (s : state) :
  page (this s) = None -> fill_field f sels s = (Ok false, s).
Proof.
  intros Hp. induction sels as [|sel rest IH]; [reflexivity|].
  cbn [fill_field]. unfold try_catch, bind.
  rewrite (waitForSelector_no_page s sel 2000 Hp). exact IH.
Qed.

Lemma fill_fields_no_page {E : Env} (fields : list form_field) (n : Z) (s : state) :
  page (this s) = None -> fill_fields fields n s = (Ok n, s).
Proof.
  intros Hp. induction fields as [|f rest IH]; [reflexivity|].
  cbn [fill_fields]. unfold bind. rewrite (fill_field_no_page f _ s Hp). exact IH.
Qed.

Lemma never_resolves_rejecting {E : Env} (p : page_handle) (sels : list string) :
  (forall sel, In sel sels -> never_resolves p sel) ->
  rejecting p (fun _ => True) sels.
Proof.
  intros H sel Hsel t w _. split; [apply H; exact Hsel | exact I].
Qed.

(** C4: when no candidate resolves, [click_element] and [wait_for_element]
    go through every candidate, click nothing, do not throw, and return
    ["Failed to click <description>"] and ["No elements found"]; neither
    tool throws on any list in any state. *)
Theorem selector_exhaustion_not_fatal {E : Env} (s : state)
    (selectors : list string) (description : string) (t : Z) :
  (forall p, page (this s) = Some p ->
     forall sel, In sel selectors -> never_resolves p sel) ->
  returns (clickElement selectors description) s ("Failed to click " ++ description) /\
  issues (clickElement selectors description) s
    match page (this s) with
    | Some _ => map (fun x => CWaitForSelector x 3000) selectors
    | None => []
    end /\
  returns (waitForElement selectors t) s "No elements found" /\
  issues (waitForElement selectors t) s
    match page (this s) with
    | Some _ => map (fun x => CWaitForSelector x t) selectors
    | None => []
    end /\
  (forall l d, never_throws (clickElement l d)) /\
  (forall l t', never_throws (waitForElement l t')).
Proof.
  intros Hno.
  assert (Hboth :
    (fst (clickElement_from description selectors s)
       = Ok ("Failed to click " ++ description)
     /\ calls (snd (clickElement_from description selectors s))
        = (calls s ++ match page (this s) with
                      | Some _ => map (fun x => CWaitForSelector x 3000) selectors
                      | None => []
                      end)%list)
    /\ (fst (waitForElement selectors t s) = Ok "No elements found"
        /\ calls (snd (waitForElement selectors t s))
           = (calls s ++ match page (this s) with
                         | Some _ => map (fun x => CWaitForSelector x t) selectors
                         | None => []
                         end)%list)).
  { destruct (page (this s)) as [p|] eqn:Hp.
    - pose proof (never_resolves_rejecting p selectors (Hno p eq_refl)) as Hrej.
      destruct (clickElement_rejected p (fun _ => True) description selectors s
                  Hp I Hrej) as (H1 & H2 & _).
      destruct (waitForElement_rejected p (fun _ => True) t selectors s
                  Hp I Hrej) as (H3 & H4 & _).
      auto.
    - rewrite (clickElement_no_page description selectors s Hp).
      rewrite (waitForElement_no_page t selectors s Hp).
      cbn [fst snd]. rewrite app_nil_r. auto. }
  destruct Hboth as [[Hr Hc] [Hr' Hc']].
  repeat split; try assumption.
  - intros l d. apply clickElement_never_throws.
  - intros l t'. apply waitForElement_never_throws.
Qed.

Lemma sim_never_resolves (matching : list string) (doc : document) (title : string)
    (p : nat) (sel : string) :
  Sim.resolves matching sel = false ->
  @never_resolves (SimEnv matching doc title) p sel.
Proof.
  intros H t w. cbn. unfold Sim.on_page. rewrite H.
  destruct (Sim.is_connected p w); eexists; reflexivity.
Qed.

Lemma selector_exhaustion_not_fatal_witness :
  let E := SimEnv ["button.submit"] (mkDocument [] [] []) EmptyString in
  let s := sim_ready ["button.submit"] (mkDocument [] [] []) EmptyString in
  @returns E _ (@clickElement E ["#missing"; ".absent"] "the login link") s
    "Failed to click the login link"
  /\ @returns E _ (@waitForElement E ["#missing"; ".absent"] 10000) s
       "No elements found".
Proof.
  intros E s.
  destruct (@selector_exhaustion_not_fatal E s ["#missing"; ".absent"]
              "the login link" 10000) as (H1 & _ & H2 & _).
  - intros p _ sel [<-|[<-|[]]]; apply sim_never_resolves; reflexivity.
  - split; [exact H1 | exact H2].
Defined.

(** ** What the operations may touch *)

Section Frames.

Context {E : Env}.
Variable allowed : call -> bool.

Lemma frame_ret {A} (a : A) : frame allowed (ret a).
Proof.
  intros s. split; [reflexivity|]. exists []. rewrite app_nil_r. auto.
Qed.

Lemma frame_throw {A} (e : exn) : frame allowed (@throw E A e).
Proof.
  intros s. split; [reflexivity|]. exists []. rewrite app_nil_r. auto.
Qed.

Lemma frame_get_this : frame allowed get_this.
Proof.
  intros s. split; [reflexivity|]. exists []. rewrite app_nil_r. auto.
Qed.

Lemma frame_perform {A} (c : call) (op : world -> result A * world) :
  allowed c = true -> frame allowed (perform c op).
Proof.
  intros Hc s. unfold perform. destruct (op (env s)) as [r w].
  split; [reflexivity|]. exists [c]. split; [reflexivity|].
  cbn. rewrite Hc. reflexivity.
Qed.

Lemma frame_query {A} (c : call) (op : world -> A) :
  allowed c = true -> frame allowed (query c op).
Proof.
  intros Hc s. split; [reflexivity|]. exists [c]. split; [reflexivity|].
  cbn. rewrite Hc. reflexivity.
Qed.

Lemma frame_bind {A B} (m : M A) (k : A -> M B) :
  frame allowed m -> (forall a, frame allowed (k a)) -> frame allowed (bind m k).
Proof.
  intros Hm Hk s. unfold bind.
  destruct (Hm s) as (Ht & cs & Hc & Hall).
  destruct (m s) as [[a|e] s1]; cbn [snd] in *.
  - destruct (Hk a s1) as (Ht' & cs' & Hc' & Hall').
    split; [congruence|]. exists (cs ++ cs')%list.
    rewrite Hc', Hc, <- app_assoc, forallb_app, Hall, Hall'. auto.
  - split; [exact Ht|]. exists cs. auto.
Qed.

Lemma frame_try_catch {A} (m : M A) (h : exn -> M A) :
  frame allowed m -> (forall e, frame allowed (h e)) -> frame allowed (try_catch m h).
Proof.
  intros Hm Hh s. unfold try_catch.
  destruct (Hm s) as (Ht & cs & Hc & Hall).
  destruct (m s) as [[a|e] s1]; cbn [snd] in *.
  - split; [exact Ht|]. exists cs. auto.
  - destruct (Hh e s1) as (Ht' & cs' & Hc' & Hall').
    split; [congruence|]. exists (cs ++ cs')%list.
    rewrite Hc', Hc, <- app_assoc, forallb_app, Hall, Hall'. auto.
Qed.

Lemma frame_the_page (prop : string) : frame allowed (the_page prop).
Proof.
  unfold the_page. apply frame_bind; [apply frame_get_this|].
  intros this_. destruct (page this_); [apply frame_ret | apply frame_throw].
Qed.

End Frames.

Create HintDb frames.

#[local] Hint Resolve frame_ret frame_throw frame_get_this frame_the_page : frames.

Ltac frame_step :=
  first [ solve [auto with frames]
        | apply frame_perform; reflexivity | apply frame_query; reflexivity
        | apply frame_try_catch | apply frame_bind ].

Ltac frames := repeat (intros; frame_step).

Section ToolFrames.

Context {E : Env}.

Lemma frame_waitForSelector (sel : string) (t : Z) :
  frame not_lifecycle (waitForSelector sel t).
Proof. unfold waitForSelector. frames. Qed.

Lemma frame_click (sel : string) : frame not_lifecycle (click sel).
Proof. unfold click. frames. Qed.

Lemma frame_press (key : string) : frame not_lifecycle (press key).
Proof. unfold press. frames. Qed.

Lemma frame_type (sel text : string) (delay : Z) :
  frame not_lifecycle (type sel text delay).
Proof. unfold type. frames. Qed.

Lemma frame_clickElement (sels : list string) (d : string) :
  frame not_lifecycle (clickElement sels d).
Proof.
  unfold clickElement. induction sels as [|sel rest IH]; cbn [clickElement_from].
  - apply frame_ret.
  - apply frame_try_catch; [|intros _; exact IH].
    apply frame_bind; [apply frame_waitForSelector|]. intros _.
    apply frame_bind; [apply frame_click|]. intros _. apply frame_ret.
Qed.

Lemma frame_waitForElement (sels : list string) (t : Z) :
  frame not_lifecycle (waitForElement sels t).
Proof.
  induction sels as [|sel rest IH]; cbn [waitForElement].
  - apply frame_ret.
  - apply frame_try_catch; [|intros _; exact IH].
    apply frame_bind; [apply frame_waitForSelector|]. intros _. apply frame_ret.
Qed.

Lemma frame_fill_field (f : form_field) (sels : list string) :
  frame not_lifecycle (fill_field f sels).
Proof.
  induction sels as [|sel rest IH]; cbn [fill_field].
  - apply frame_ret.
  - apply frame_try_catch; [|intros _; exact IH].
    apply frame_bind; [apply frame_waitForSelector|]. intros _.
    apply frame_bind; [apply frame_click|]. intros _.
    apply frame_bind; [apply frame_press|]. intros _.
    apply frame_bind; [apply frame_press|]. intros _.
    apply frame_bind; [apply frame_type|]. intros _. apply frame_ret.
Qed.

Lemma frame_fill_fields (fields : list form_field) (n : Z) :
  frame not_lifecycle (fill_fields fields n).
Proof.
  revert n. induction fields as [|f rest IH]; intros n; cbn [fill_fields].
  - apply frame_ret.
  - apply frame_bind; [apply frame_fill_field|]. intros b. apply IH.
Qed.

Lemma frame_dispatch (i : invocation) :
  is_close i = false -> frame not_lifecycle (dispatch i).
Proof.
  destruct i; cbn [is_close dispatch]; intros Hi; try discriminate;
    (apply frame_bind; [|intros; apply frame_ret]).
  - unfold openBrowser. frames.
  - unfold takeScreenshot. frames.
  - apply frame_clickElement.
  - unfold fillForm. apply frame_bind; [apply frame_fill_fields|].
    intros. apply frame_ret.
  - unfold analyzeForm. frames.
  - apply frame_waitForElement.
  - unfold scrollPage. destruct (scrollMap amount d). frames.
Qed.

Lemma frame_closeBrowser : frame not_launch closeBrowser.
Proof.
  unfold closeBrowser. apply frame_try_catch; [|intros; apply frame_ret].
  apply frame_bind; [apply frame_get_this|]. intros this_.
  apply frame_bind; [|intros; apply frame_ret].
  destruct (browser this_); [|apply frame_ret].
  unfold close. frames.
Qed.

Lemma frame_cleanup : frame not_launch cleanup.
Proof.
  unfold cleanup, close_if_connected.
  apply frame_bind; [apply frame_get_this|]. intros this_.
  destruct (browser this_); [|apply frame_ret].
  apply frame_bind; [unfold isConnected; frames|].
  intros [|]; [unfold close; frames | apply frame_ret].
Qed.

Lemma frame_weaken {A} (P Q : call -> bool) (m : M A) :
  (forall c, P c = true -> Q c = true) -> frame P m -> frame Q m.
Proof.
  intros HPQ Hm s. destruct (Hm s) as (Ht & cs & Hc & Hall).
  split; [exact Ht|]. exists cs. split; [exact Hc|].
  apply forallb_forall. intros c Hin. apply HPQ.
  rewrite forallb_forall in Hall. apply Hall. exact Hin.
Qed.

Lemma not_lifecycle_not_launch (c : call) :
  not_lifecycle c = true -> not_launch c = true.
Proof.
  unfold not_lifecycle, not_launch, lifecycle_call.
  destruct (launch_call c); [discriminate | reflexivity].
Qed.

(** No tool launches a browser or changes the engine's handles. *)
Lemma dispatch_frame (i : invocation) : frame not_launch (dispatch i).
Proof.
  destruct (is_close i) eqn:Hi.
  - destruct i; try discriminate. cbn [dispatch].
    apply frame_bind; [apply frame_closeBrowser | intros; apply frame_ret].
  - apply (frame_weaken not_lifecycle); [apply not_lifecycle_not_launch|].
    apply frame_dispatch. exact Hi.
Qed.

End ToolFrames.

(** ** close_browser and cleanup *)

Section Closing.

Context {E : Env}.

Lemma closeBrowser_never_throws : never_throws closeBrowser.
Proof.
  unfold closeBrowser. apply try_catch_never_throws.
  intros e s. eexists. reflexivity.
Qed.

Lemma closeBrowser_no_browser (s : state) :
  browser (this s) = None ->
  closeBrowser s = (Ok "Browser closed successfully", s).
Proof.
  intros Hb. unfold closeBrowser, try_catch, bind, get_this, ret.
  rewrite Hb. reflexivity.
Qed.

Lemma closeBrowser_with_browser (s : state) (b : browser_handle) :
  browser (this s) = Some b ->
  closeBrowser s =
    (Ok match fst (browser_close b (env s)) with
        | Ok _ => "Browser closed successfully"
        | Throw error => "Browser close failed: " ++ message error
        end,
     mkState (this s) (snd (browser_close b (env s))) (calls s ++ [CClose])).
Proof.
  intros Hb. unfold closeBrowser, try_catch, bind, get_this, close, perform, ret.
  rewrite Hb. destruct (browser_close b (env s)) as [[[]|e] w]; reflexivity.
Qed.

Lemma cleanup_no_browser (s : state) :
  browser (this s) = None -> cleanup s = (Ok tt, s).
Proof.
  intros Hb. unfold cleanup, close_if_connected, bind, get_this, ret.
  rewrite Hb. reflexivity.
Qed.

Lemma cleanup_disconnected (s : state) (b : browser_handle) :
  browser (this s) = Some b -> browser_isConnected b (env s) = false ->
  cleanup s = (Ok tt, mkState (this s) (env s) (calls s ++ [CIsConnected])).
Proof.
  intros Hb Hc.
  unfold cleanup, close_if_connected, bind, get_this, isConnected, query, ret.
  rewrite Hb. cbn [env]. rewrite Hc. reflexivity.
Qed.

Lemma cleanup_connected (s : state) (b : browser_handle) :
  browser (this s) = Some b -> browser_isConnected b (env s) = true ->
  cleanup s =
    (fst (browser_close b (env s)),
     mkState (this s) (snd (browser_close b (env s)))
       (calls s ++ [CIsConnected; CClose])).
Proof.
  intros Hb Hc.
  unfold cleanup, close_if_connected, bind, get_this, isConnected, query, close,
    perform, ret.
  rewrite Hb. cbn [env this calls]. rewrite Hc. cbn [env this calls].
  destruct (browser_close b (env s)) as [[[]|e] w];
    cbn [fst snd]; rewrite <- app_assoc; reflexivity.
Qed.

End Closing.

Section ClosingTwice.

Context {E : Env}.

Lemma cleanup_checks_connectivity :
  checks_connectivity cleanup /\ no_close_when_closed cleanup.
Proof.
  split.
  - intros s cs Hcs Hin. unfold issues in Hcs.
    destruct (browser (this s)) as [b|] eqn:Hb.
    + destruct (browser_isConnected b (env s)) eqn:Hc.
      * rewrite (cleanup_connected s b Hb Hc) in Hcs. cbn [snd calls] in Hcs.
        apply app_inv_head in Hcs. subst cs. exists [], []. reflexivity.
      * rewrite (cleanup_disconnected s b Hb Hc) in Hcs. cbn [snd calls] in Hcs.
        apply app_inv_head in Hcs. subst cs.
        destruct Hin as [Hin|[]]. discriminate Hin.
    + rewrite (cleanup_no_browser s Hb) in Hcs. cbn [snd] in Hcs.
      rewrite <- (app_nil_r (calls s)) in Hcs at 1.
      apply app_inv_head in Hcs. subst cs. destruct Hin.
  - intros s cs Hclosed Hcs Hin. unfold session_of in Hclosed. unfold issues in Hcs.
    destruct (browser (this s)) as [b|] eqn:Hb; [|discriminate].
    destruct (browser_isConnected b (env s)) eqn:Hc; [discriminate|].
    rewrite (cleanup_disconnected s b Hb Hc) in Hcs. cbn [snd calls] in Hcs.
    apply app_inv_head in Hcs. subst cs.
    destruct Hin as [Hin|[]]. discriminate Hin.
Qed.

(** Under Playwright's contract a close that succeeded succeeds again. *)
Lemma closeBrowser_twice (s : state) :
  close_contract ->
  returns closeBrowser s "Browser closed successfully" ->
  returns closeBrowser (snd (closeBrowser s)) "Browser closed successfully".
Proof.
  intros [Htol Hdis] H1. unfold returns in *.
  destruct (browser (this s)) as [b|] eqn:Hb.
  - rewrite (closeBrowser_with_browser s b Hb) in *. cbn [fst snd] in *.
    destruct (browser_close b (env s)) as [[[]|e] w] eqn:Hclose; cbn [fst snd] in *.
    + erewrite closeBrowser_with_browser by exact Hb. cbn [fst env].
      assert (Hc : browser_isConnected b w = false).
      { pose proof (Hdis b (env s)) as Hd. rewrite Hclose in Hd. apply Hd. reflexivity. }
      rewrite (Htol b w Hc). reflexivity.
    + cbn in H1. discriminate H1.
  - rewrite (closeBrowser_no_browser s Hb) in *. cbn [snd].
    rewrite (closeBrowser_no_browser s Hb). reflexivity.
Qed.

Lemma closeBrowser_when_closed (s : state) :
  close_contract -> session_of s = Closed ->
  returns closeBrowser s "Browser closed successfully".
Proof.
  intros [Htol _] Hclosed. unfold returns, session_of in *.
  destruct (browser (this s)) as [b|] eqn:Hb; [|discriminate].
  destruct (browser_isConnected b (env s)) eqn:Hc; [discriminate|].
  rewrite (closeBrowser_with_browser s b Hb). cbn [fst].
  rewrite (Htol b (env s) Hc). reflexivity.
Qed.

End ClosingTwice.

(** C8, as the specification words it, fails: [close_browser] never asks
    whether the browser is connected, and on a browser that is already closed
    it calls [browser.close()] again. *)
Lemma closeBrowser_closes_again :
  let E := SimEnv [] (mkDocument [] [] []) EmptyString in
  ~ @checks_connectivity E _ (@closeBrowser E)
  /\ ~ @no_close_when_closed E _ (@closeBrowser E)
  /\ ~ @close_checks_connectivity E.
Proof.
  intros E.
  assert (H1 : ~ @checks_connectivity E _ (@closeBrowser E)).
  { intros H.
    destruct (H (sim_ready [] (mkDocument [] [] []) EmptyString) [CClose] eq_refl
                (or_introl eq_refl)) as (before & after & Hcs).
    destruct before as [|c [|c' before]]; discriminate Hcs. }
  assert (H2 : ~ @no_close_when_closed E _ (@closeBrowser E)).
  { intros H.
    apply (H (snd (@closeBrowser E (sim_ready [] (mkDocument [] [] []) EmptyString)))
             [CClose] eq_refl eq_refl).
    left. reflexivity. }
  split; [exact H1|]. split; [exact H2|].
  intros [H _]. exact (H1 H).
Qed.

(** C8, amended: [close_browser] never throws, also when called twice in
    succession, and under Playwright's contract for [browser.close()] a
    second call, or a call on a browser that is already closed, returns the
    success text like the first.  It does so without checking connectivity:
    with no browser it calls nothing and reports success; with a browser it
    calls [browser.close()] after a null check only, also when the browser is
    already closed, and reports success when that call returns and the
    failure when it throws.  [cleanup] is the operation that asks
    [isConnected()] first: with no browser, or a disconnected one, it closes
    nothing and leaves the world as it is. *)
Theorem close_is_safe {E : Env} (s : state) :
  never_throws closeBrowser /\
  (exists t1 t2, fst (closeBrowser s) = Ok t1
                 /\ fst (closeBrowser (snd (closeBrowser s))) = Ok t2) /\
  (close_contract ->
     (returns closeBrowser s "Browser closed successfully" ->
      returns closeBrowser (snd (closeBrowser s)) "Browser closed successfully")
     /\ (session_of s = Closed ->
         returns closeBrowser s "Browser closed successfully")) /\
  (browser (this s) = None ->
     closeBrowser s = (Ok "Browser closed successfully", s)) /\
  (forall b, browser (this s) = Some b ->
     issues closeBrowser s [CClose] /\
     (fst (browser_close b (env s)) = Ok tt ->
        returns closeBrowser s "Browser closed successfully") /\
     (forall e, fst (browser_close b (env s)) = Throw e ->
        returns closeBrowser s ("Browser close failed: " ++ message e))) /\
  (checks_connectivity cleanup /\ no_close_when_closed cleanup) /\
  (browser (this s) = None -> cleanup s = (Ok tt, s)) /\
  (forall b, browser (this s) = Some b -> browser_isConnected b (env s) = false ->
     returns cleanup s tt /\ issues cleanup s [CIsConnected]
     /\ env (snd (cleanup s)) = env s) /\
  (forall b, browser (this s) = Some b -> browser_isConnected b (env s) = true ->
     issues cleanup s [CIsConnected; CClose]).
Proof.
  split; [exact closeBrowser_never_throws|].
  split.
  { destruct (closeBrowser_never_throws s) as [t1 H1].
    destruct (closeBrowser_never_throws (snd (closeBrowser s))) as [t2 H2].
    exists t1, t2. auto. }
  split.
  { intros Hcontract. split.
    - apply closeBrowser_twice. exact Hcontract.
    - apply closeBrowser_when_closed. exact Hcontract. }
  split; [apply closeBrowser_no_browser|].
  split.
  { intros b Hb. unfold issues, returns. rewrite (closeBrowser_with_browser s b Hb).
    cbn [fst snd calls]. repeat split.
    - intros ->. reflexivity.
    - intros e ->. reflexivity. }
  split; [exact cleanup_checks_connectivity|].
  split; [apply cleanup_no_browser|].
  split.
  - intros b Hb Hc. unfold issues, returns. rewrite (cleanup_disconnected s b Hb Hc).
    auto.
  - intros b Hb Hc. unfold issues. rewrite (cleanup_connected s b Hb Hc). reflexivity.
Qed.

(** The simulated browser keeps Playwright's contract. *)
Lemma sim_close_contract (matching : list string) (doc : document) (title : string) :
  @close_contract (SimEnv matching doc title).
Proof.
  split; cbn; [reflexivity|].
  intros b w _. unfold Sim.is_connected. cbn [Sim.connected].
  induction (Sim.connected w) as [|x l IH]; [reflexivity|].
  cbn [filter]. destruct (Nat.eqb b x) eqn:Hbx; cbn [negb]; [exact IH|].
  cbn [existsb]. rewrite Hbx. exact IH.
Qed.

Lemma close_is_safe_witness :
  let E := SimEnv [] (mkDocument [] [] []) EmptyString in
  let s := sim_ready [] (mkDocument [] [] []) EmptyString in
  @closeBrowser E (sim_blank [] (mkDocument [] [] []) EmptyString)
    = (Ok "Browser closed successfully", sim_blank [] (mkDocument [] [] []) EmptyString)
  /\ @returns E _ (@closeBrowser E) s "Browser closed successfully"
  /\ @returns E _ (@closeBrowser E) (snd (@closeBrowser E s))
       "Browser closed successfully".
Proof.
  intros E s. split; [|split].
  - destruct (@close_is_safe E (sim_blank [] (mkDocument [] [] []) EmptyString))
      as (_ & _ & _ & H & _).
    apply H. reflexivity.
  - destruct (@close_is_safe E s) as (_ & _ & _ & _ & H & _).
    destruct (H 0%nat eq_refl) as (_ & Hok & _). apply Hok. reflexivity.
  - destruct (@close_is_safe E s) as (_ & _ & Htwice & _).
    destruct (Htwice (sim_close_contract [] (mkDocument [] [] []) EmptyString))
      as [Hagain _].
    apply Hagain. reflexivity.
Defined.

(** ** The session lifecycle *)

Section Lifecycle.

Context {E : Env}.

Lemma initialize_success (s : state) :
  fst (initialize s) = Ok true ->
  exists b p,
    browser (this (snd (initialize s))) = Some b
    /\ page (this (snd (initialize s))) = Some p
    /\ issues initialize s [CLaunch (headless (this s)) (slowMo (this s)); CNewPage].
Proof.
  unfold issues, initialize, the_browser.
  unfold try_catch, bind, get_this, set_this, perform, ret, throw.
  cbn [this env calls].
  destruct (chromium_launch (headless (this s)) (slowMo (this s)) (env s))
    as [[b|e] w1]; cbn [this env calls browser]; [|discriminate].
  destruct (browser_newPage b w1) as [[p|e] w2];
    cbn [fst snd this env calls browser page]; [|discriminate].
  intros _. exists b, p. rewrite <- app_assoc. auto.
Qed.

(** Whatever the state, [initialize] starts by launching a browser. *)
Lemma initialize_launches (s : state) :
  exists cs,
    issues initialize s (CLaunch (headless (this s)) (slowMo (this s)) :: cs).
Proof.
  unfold issues, initialize, the_browser.
  unfold try_catch, bind, get_this, set_this, perform, ret, throw.
  cbn [this env calls].
  destruct (chromium_launch (headless (this s)) (slowMo (this s)) (env s))
    as [[b|e] w1]; cbn [this env calls browser].
  - destruct (browser_newPage b w1) as [[p|e] w2]; cbn [snd calls];
      exists [CNewPage]; rewrite <- app_assoc; reflexivity.
  - exists []. reflexivity.
Qed.

Lemma dispatch_no_page (i : invocation) (s : state) :
  is_close i = false -> page (this s) = None ->
  exists r, returns (dispatch i) s r /\ failure i r
            /\ env (snd (dispatch i s)) = env s.
Proof.
  intros Hi Hp. unfold returns.
  destruct i as [url|name_|sels description|fields| |sels t|d amount| ];
    try discriminate; cbn [dispatch failure]; unfold bind.
  - unfold openBrowser, try_catch, bind. rewrite (the_page_none s _ Hp).
    eexists. repeat split. eexists. reflexivity.
  - unfold takeScreenshot, try_catch, bind, query.
    erewrite the_page_none by exact Hp.
    eexists. repeat split. eexists. reflexivity.
  - unfold clickElement. rewrite (clickElement_no_page _ _ s Hp).
    eexists. repeat split.
  - unfold fillForm, bind. rewrite (fill_fields_no_page _ _ s Hp).
    eexists. repeat split.
  - unfold analyzeForm, try_catch, bind. rewrite (the_page_none s _ Hp).
    eexists. repeat split. eexists. reflexivity.
  - rewrite (waitForElement_no_page _ _ s Hp). eexists. repeat split.
  - unfold scrollPage. destruct (scrollMap amount d) as [x y].
    unfold try_catch, bind. rewrite (the_page_none s _ Hp).
    eexists. repeat split. eexists. reflexivity.
Qed.

Lemma closed_rejecting (b : browser_handle) (p : page_handle) (sels : list string) :
  closed_rejects b p ->
  rejecting p (fun w => browser_isConnected b w = false) sels.
Proof.
  intros Hrej sel _ t w Hw. apply (wait_rejected b p Hrej). exact Hw.
Qed.

Lemma dispatch_closed (i : invocation) (s : state)
    (b : browser_handle) (p : page_handle) :
  is_close i = false ->
  browser (this s) = Some b -> page (this s) = Some p ->
  browser_isConnected b (env s) = false ->
  closed_rejects b p ->
  exists r, returns (dispatch i) s r /\ failure i r
            /\ session_of (snd (dispatch i s)) = Closed.
Proof.
  intros Hi Hb Hp Hc Hrej. unfold returns, session_of.
  destruct i as [url|name_|sels description|fields| |sels t|d amount| ];
    try discriminate; cbn [dispatch failure]; unfold bind.
  - unfold openBrowser, try_catch, bind. rewrite (the_page_some s p _ Hp).
    unfold get_this, perform.
    destruct (goto_rejected b p Hrej url (timeout (this s)) (env s) Hc) as [[e He] Hc'].
    destruct (page_goto p url (timeout (this s)) (env s)) as [r w].
    cbn [fst snd] in He, Hc'. subst r. cbn [fst snd this env ret].
    rewrite Hb, Hc'. eexists. repeat split. eexists. reflexivity.
  - unfold takeScreenshot, try_catch, bind, query.
    erewrite the_page_some by exact Hp. unfold get_this, perform.
    cbn [this env calls].
    match goal with
    | |- context [page_screenshot p ?path false (env s)] =>
        destruct (screenshot_rejected b p Hrej path false (env s) Hc) as [[e He] Hc'];
        destruct (page_screenshot p path false (env s)) as [r w]
    end.
    cbn [fst snd] in He, Hc'. subst r. cbn [fst snd this env ret].
    rewrite Hb, Hc'. eexists. repeat split. eexists. reflexivity.
  - unfold clickElement.
    destruct (clickElement_rejected p _ description sels s Hp Hc
                (closed_rejecting b p sels Hrej)) as (Hr & _ & Ht & Hg).
    destruct (clickElement_from description sels s) as [r s1].
    cbn [fst snd] in *. subst r. cbn [fst snd ret]. rewrite Ht, Hb, Hg.
    eexists. repeat split.
  - unfold fillForm, bind.
    destruct (fill_fields_rejected p (fun w => browser_isConnected b w = false)
                fields 0 s Hp Hc) as (Hr & Ht & Hg).
    { intros f _. apply closed_rejecting. exact Hrej. }
    destruct (fill_fields fields 0 s) as [r s1].
    cbn [fst snd] in *. subst r. cbn [fst snd ret]. rewrite Ht, Hb, Hg.
    eexists. repeat split.
  - unfold analyzeForm, try_catch, bind. rewrite (the_page_some s p _ Hp).
    unfold perform, evaluate.
    destruct (document_rejected b p Hrej (env s) Hc) as [[e He] Hc'].
    destruct (page_document p (env s)) as [r w].
    cbn [fst snd] in He, Hc'. subst r. cbn [fst snd this env ret].
    rewrite Hb, Hc'. eexists. repeat split. eexists. reflexivity.
  - destruct (waitForElement_rejected p _ t sels s Hp Hc
                (closed_rejecting b p sels Hrej)) as (Hr & _ & Ht & Hg).
    destruct (waitForElement sels t s) as [r s1].
    cbn [fst snd] in *. subst r. cbn [fst snd ret]. rewrite Ht, Hb, Hg.
    eexists. repeat split.
  - unfold scrollPage. destruct (scrollMap amount d) as [x y].
    unfold try_catch, bind. rewrite (the_page_some s p _ Hp). unfold perform.
    destruct (wheel_rejected b p Hrej x y (env s) Hc) as [[e He] Hc'].
    destruct (mouse_wheel p x y (env s)) as [r w].
    cbn [fst snd] in He, Hc'. subst r. cbn [fst snd this env ret].
    rewrite Hb, Hc'. eexists. repeat split. eexists. reflexivity.
Qed.

Lemma dispatch_never_throws (i : invocation) : never_throws (dispatch i).
Proof.
  assert (wrap : forall A (f : A -> tool_output) (m : M A),
            never_throws m -> never_throws (bind m (fun r => ret (f r)))).
  { intros A f m Hm s. unfold bind. destruct (Hm s) as [a Ha].
    destruct (m s) as [r s1]. cbn [fst] in Ha. subst r. eexists. reflexivity. }
  assert (caught : forall A (m : M A) (h : exn -> A),
            never_throws (try_catch m (fun e => ret (h e)))).
  { intros A m h. apply try_catch_never_throws. intros e s. eexists. reflexivity. }
  destruct i; cbn [dispatch]; apply wrap.
  - apply caught.
  - apply caught.
  - apply clickElement_never_throws.
  - apply fillForm_never_throws.
  - apply caught.
  - apply waitForElement_never_throws.
  - apply caught.
  - apply closeBrowser_never_throws.
Qed.

End Lifecycle.

(** C9, as the specification words it, fails: [initialize] on a closed
    session launches a new browser, so [Closed] is not terminal. *)
Lemma initialize_reopens_closed :
  ~ @closed_is_terminal (SimEnv [] (mkDocument [] [] []) EmptyString).
Proof.
  intros H.
  specialize (H (snd (@closeBrowser (SimEnv [] (mkDocument [] [] []) EmptyString)
                        (sim_ready [] (mkDocument [] [] []) EmptyString)))
                eq_refl).
  vm_compute in H. discriminate H.
Qed.

(** C9, amended: the constructor leaves the session uninitialized;
    [initialize] is the only operation that sets the browser and the page,
    and it launches from any state, a closed one included, so [Closed] is
    terminal for the other operations only.  The tools and [cleanup] keep the
    engine's handles and never launch; only [close_browser] and [cleanup]
    close.  With no page, and on a closed browser whose page rejects every
    operation, each tool but [close_browser] returns its failure result, and
    the session stays as it is; [close_browser] is safe in every state. *)
Theorem session_lifecycle {E : Env} :
  (forall o s, session_of (snd (constructor o s)) = Uninitialized
               /\ well_formed (snd (constructor o s))) /\
  (forall s, fst (initialize s) = Ok true ->
     exists b p, browser (this (snd (initialize s))) = Some b
                 /\ page (this (snd (initialize s))) = Some p) /\
  (forall s, exists cs,
     issues initialize s (CLaunch (headless (this s)) (slowMo (this s)) :: cs)) /\
  (forall i, frame not_launch (dispatch i)) /\
  frame not_launch cleanup /\
  (forall i, is_close i = false -> frame not_lifecycle (dispatch i)) /\
  (forall i s, session_of s = Uninitialized ->
     session_of (snd (dispatch i s)) = Uninitialized) /\
  (forall i s, is_close i = false -> page (this s) = None ->
     exists r, returns (dispatch i) s r /\ failure i r
               /\ env (snd (dispatch i s)) = env s) /\
  (forall i s b p, is_close i = false ->
     browser (this s) = Some b -> page (this s) = Some p ->
     browser_isConnected b (env s) = false -> closed_rejects b p ->
     exists r, returns (dispatch i) s r /\ failure i r
               /\ session_of (snd (dispatch i s)) = Closed) /\
  never_throws closeBrowser.
Proof.
  split.
  { intros o s. unfold session_of, well_formed. rewrite constructor_this.
    cbn [browser page]. auto. }
  split.
  { intros s H. destruct (initialize_success s H) as (b & p & Hb & Hp & _).
    exists b, p. auto. }
  split; [exact initialize_launches|].
  split; [exact dispatch_frame|].
  split; [exact frame_cleanup|].
  split; [exact frame_dispatch|].
  split.
  { intros i s. unfold session_of. destruct (dispatch_frame i s) as [Ht _].
    rewrite Ht. destruct (browser (this s)); [|reflexivity].
    destruct (browser_isConnected _ _); discriminate. }
  split; [exact dispatch_no_page|].
  split; [exact dispatch_closed|].
  exact closeBrowser_never_throws.
Qed.

(** The simulated page rejects everything once its browser is closed. *)
Lemma sim_closed_rejects (matching : list string) (doc : document) (title : string)
    (b : nat) :
  @closed_rejects (SimEnv matching doc title) b b.
Proof.
  constructor; cbn; unfold Sim.on_page; intros;
    match goal with H : Sim.is_connected _ _ = false |- _ => rewrite H end;
    (split; [eexists; reflexivity | assumption]).
Qed.

Lemma session_lifecycle_witness :
  let E := SimEnv ["a.signup"] (mkDocument [] [] []) EmptyString in
  let closed := snd (@closeBrowser E (sim_ready ["a.signup"] (mkDocument [] [] []) EmptyString)) in
  (exists r, @returns E _ (@dispatch E (ClickElement ["a.signup"] "Sign Up")) closed r
             /\ failure (ClickElement ["a.signup"] "Sign Up") r)
  /\ (exists r, @returns E _ (@dispatch E (OpenBrowser "https://example.com"))
                  (sim_blank ["a.signup"] (mkDocument [] [] []) EmptyString) r
                /\ failure (OpenBrowser "https://example.com") r).
Proof.
  intros E closed.
  destruct (@session_lifecycle E) as (_ & _ & _ & _ & _ & _ & _ & Hnone & Hclosed & _).
  split.
  - destruct (Hclosed (ClickElement ["a.signup"] "Sign Up") closed 0%nat 0%nat
                eq_refl eq_refl eq_refl eq_refl
                (sim_closed_rejects ["a.signup"] (mkDocument [] [] []) EmptyString 0))
      as (r & Hr & Hf & _).
    exists r. auto.
  - destruct (Hnone (OpenBrowser "https://example.com")
                (sim_blank ["a.signup"] (mkDocument [] [] []) EmptyString)
                eq_refl eq_refl) as (r & Hr & Hf & _).
    exists r. auto.
Defined.

(** ** The turn limit *)

(** C2: the [maxTurns] the engine configures does not bound the run.  The
    engine hands it to [new Runner(...)] and calls [run] without options, so
    every run has the library's limit of 10 turns, whatever [maxTurns] is; a
    reasoning engine that only ever asks for tools, with [maxTurns] 3, gets
    10 tool calls dispatched (10 wheel calls reach the browser) and the run
    ends by throwing, after which the browser is closed. *)
Theorem maxTurns_not_enforced :
  (forall (E : Env) (engine : Runner.reasoning_engine) (task : string)
          (model : Js.value) (M M' : Z) (s : state),
     runAutomation (engine_run engine) task (mkRunOptions model (Js.VNum M)) s
     = runAutomation (engine_run engine) task (mkRunOptions model (Js.VNum M')) s) /\
  let E := SimEnv [] (mkDocument [] [] []) EmptyString in
  let s := sim_ready [] (mkDocument [] [] []) EmptyString in
  let run := @runAutomation E _ (@engine_run E scroll_forever) "scroll to the end"
               (mkRunOptions Js.VUndefined (Js.VNum 3)) s in
  fst run = Throw (Runner.MaxTurnsExceededError 10) /\
  List.length (filter is_wheel (calls (snd run))) = 10%nat /\
  skipn (List.length (calls s) + 10) (calls (snd run)) = [CIsConnected; CClose].
Proof.
  split.
  - intros E engine task model M M' s. unfold runAutomation.
    cbn [opt_maxTurns opt_model]. reflexivity.
  - cbv zeta. repeat split; vm_compute; reflexivity.
Qed.

(** * Further properties of the engine *)

(** ** Tools never fail fatally *)

(** X1: every tool of [createTools], run in any state against any browser,
    returns a result; no error of the browser reaches the caller. *)
Theorem tools_never_throw {E : Env} (i : invocation) (s : state) :
  exists r, returns (dispatch i) s r.
Proof. exact (dispatch_never_throws i s). Qed.

(** ** open_browser *)

(** X2: [open_browser] navigates with the engine's [timeout] and then asks
    for the title.  When both succeed it reports the URL and the title in
    quotes; when the navigation fails it reports that error and never asks
    for the title; when the title fails it reports that error. *)
Theorem openBrowser_outcomes {E : Env} (s : state) (p : page_handle) (url : string) :
  page (this s) = Some p ->
  let nav := page_goto p url (timeout (this s)) (env s) in
  (forall e, fst nav = Throw e ->
     returns (openBrowser url) s ("Navigation failed: " ++ message e)
     /\ issues (openBrowser url) s [CGoto url (timeout (this s))]) /\
  (fst nav = Ok tt ->
     issues (openBrowser url) s [CGoto url (timeout (this s)); CTitle]
     /\ (forall title, fst (page_title p (snd nav)) = Ok title ->
           returns (openBrowser url) s
             ("Successfully navigated to " ++ url ++ ". Page title: "
              ++ String (ascii_of_nat 34) title
              ++ String (ascii_of_nat 34) EmptyString))
     /\ (forall e, fst (page_title p (snd nav)) = Throw e ->
           returns (openBrowser url) s ("Navigation failed: " ++ message e))).
Proof.
  intros Hp nav. unfold returns, issues, openBrowser, try_catch, bind.
  rewrite (the_page_some s p _ Hp). unfold get_this, perform.
  fold nav. destruct nav as [r w]. cbn [fst snd].
  split.
  - intros e ->. cbn [fst snd calls ret]. auto.
  - intros ->. erewrite the_page_some by exact Hp. cbn [env calls this].
    destruct (page_title p w) as [[title|e] w']; cbn [fst snd calls ret].
    + rewrite <- app_assoc. repeat split.
      * intros t Ht. inversion Ht. reflexivity.
      * intros e He. discriminate He.
    + rewrite <- app_assoc. repeat split.
      * intros t Ht. discriminate Ht.
      * intros e' He. inversion He. reflexivity.
Qed.

Lemma openBrowser_outcomes_witness :
  let E := SimEnv [] (mkDocument [] [] []) "Example Domain" in
  @issues E _ (@openBrowser E "https://example.com")
    (sim_ready [] (mkDocument [] [] []) "Example Domain")
    [CGoto "https://example.com" (Js.VNum 30000); CTitle].
Proof.
  intros E.
  destruct (@openBrowser_outcomes E (sim_ready [] (mkDocument [] [] []) "Example Domain")
              0%nat "https://example.com" eq_refl) as [_ H].
  destruct (H eq_refl) as [Hc _]. exact Hc.
Defined.

(** ** initialize *)

(** X3: when the launch fails [initialize] throws the launch's error and the
    engine is as before; when the launch succeeds and [newPage] fails it
    throws that error, keeps the launched browser in [this.browser], leaves
    [this.page] as it was and does not close the browser. *)
Theorem initialize_failures {E : Env} (s : state) :
  let launch := chromium_launch (headless (this s)) (slowMo (this s)) (env s) in
  (forall e, fst launch = Throw e ->
     initialize s =
       (Throw e,
        mkState (this s) (snd launch)
          (calls s ++ [CLaunch (headless (this s)) (slowMo (this s))]))) /\
  (forall b e, fst launch = Ok b ->
     fst (browser_newPage b (snd launch)) = Throw e ->
     fst (initialize s) = Throw e
     /\ browser (this (snd (initialize s))) = Some b
     /\ page (this (snd (initialize s))) = page (this s)
     /\ issues initialize s [CLaunch (headless (this s)) (slowMo (this s)); CNewPage]).
Proof.
  intros launch. unfold issues, initialize, the_browser.
  unfold try_catch, bind, get_this, set_this, perform, ret, throw.
  cbn [this env calls]. fold launch. destruct launch as [r w1]. cbn [fst snd].
  split.
  - intros e ->. reflexivity.
  - intros b e -> Hnew. cbn [this env calls browser].
    destruct (browser_newPage b w1) as [r2 w2]. cbn [fst] in Hnew. subst r2.
    cbn [fst snd this browser page calls]. rewrite <- app_assoc. auto.
Qed.

(** A browser that cannot be launched. *)
Lemma initialize_failures_witness :
  let E := BrokenEnv in
  @initialize E broken_blank
  = (Throw (Error "Executable doesn't exist"),
     @mkState E (this broken_blank) tt [CLaunch Js.VUndefined Js.VUndefined]).
Proof.
  intros E.
  destruct (@initialize_failures E broken_blank) as [H _].
  apply (H (Error "Executable doesn't exist")). reflexivity.
Defined.

(** ** runAutomation *)

(** X4: [runAutomation] hands back what the runner returns and then closes
    nothing.  When the runner throws, it asks whether the browser is
    connected and closes it if so, then throws the runner's error again; with
    no browser it calls nothing; when the browser is no longer connected it
    only asks. *)
Theorem runAutomation_error_path {E : Env} {R : Type}
    (run : Js.value -> Js.value -> string -> M R)
    (task : string) (o : run_options) (s : state) :
  let started :=
    run (Js.or (opt_maxTurns o) (Js.VNum 25))
        (Js.or (opt_model o) (Js.VStr "gpt-4o-mini")) task s in
  let s1 := snd started in
  (forall r, fst started = Ok r -> runAutomation run task o s = (Ok r, s1)) /\
  (forall e, fst started = Throw e -> browser (this s1) = None ->
     runAutomation run task o s = (Throw e, s1)) /\
  (forall e b, fst started = Throw e -> browser (this s1) = Some b ->
     browser_isConnected b (env s1) = false ->
     runAutomation run task o s
       = (Throw e, mkState (this s1) (env s1) (calls s1 ++ [CIsConnected]))) /\
  (forall e b, fst started = Throw e -> browser (this s1) = Some b ->
     browser_isConnected b (env s1) = true ->
     fst (browser_close b (env s1)) = Ok tt ->
     runAutomation run task o s
       = (Throw e,
          mkState (this s1) (snd (browser_close b (env s1)))
            (calls s1 ++ [CIsConnected; CClose]))).
Proof.
  intros started s1. unfold runAutomation, try_catch.
  fold started. subst s1. destruct started as [r s1]. cbn [fst snd].
  repeat split.
  - intros r0 ->. reflexivity.
  - intros e -> Hb. unfold bind. fold cleanup.
    rewrite (cleanup_no_browser s1 Hb). reflexivity.
  - intros e b -> Hb Hc. unfold bind. fold cleanup.
    rewrite (cleanup_disconnected s1 b Hb Hc). reflexivity.
  - intros e b -> Hb Hc Hclose. unfold bind. fold cleanup.
    rewrite (cleanup_connected s1 b Hb Hc). rewrite Hclose. reflexivity.
Qed.

Lemma runAutomation_error_path_witness :
  let E := SimEnv [] (mkDocument [] [] []) EmptyString in
  let s := sim_ready [] (mkDocument [] [] []) EmptyString in
  @runAutomation E unit (fun _ _ _ => @throw E unit (Error "connection reset"))
    "log in" (mkRunOptions Js.VUndefined Js.VUndefined) s
  = (Throw (Error "connection reset"),
     @mkState E (this s) (snd (@browser_close E 0%nat (env s)))
       (calls s ++ [CIsConnected; CClose])).
Proof.
  intros E s.
  destruct (@runAutomation_error_path E unit
              (fun _ _ _ => @throw E unit (Error "connection reset"))
              "log in" (mkRunOptions Js.VUndefined Js.VUndefined) s)
    as (_ & _ & _ & H).
  apply (H (Error "connection reset") 0%nat); reflexivity.
Defined.

(** X5: a [maxTurns] option that is 0, NaN or absent runs as 25 and an absent
    or empty [model] as ['gpt-4o-mini']; a positive [maxTurns] and a non-empty
    model name reach the runner as given. *)
Theorem runAutomation_defaults {E : Env} {R : Type}
    (run : Js.value -> Js.value -> string -> M R)
    (task : string) (o : run_options) (s : state) :
  (Js.truthy (opt_maxTurns o) = false ->
     runAutomation run task o s
       = runAutomation run task (mkRunOptions (opt_model o) (Js.VNum 25)) s) /\
  (Js.truthy (opt_model o) = false ->
     runAutomation run task o s
       = runAutomation run task
           (mkRunOptions (Js.VStr "gpt-4o-mini") (opt_maxTurns o)) s) /\
  (forall n name, 0 < n -> name <> EmptyString ->
     opt_maxTurns o = Js.VNum n -> opt_model o = Js.VStr name ->
     runAutomation run task o s
       = try_catch (run (Js.VNum n) (Js.VStr name) task)
           (fun error => close_if_connected ;; throw error) s).
Proof.
  unfold runAutomation. cbn [opt_model opt_maxTurns]. repeat split.
  - intros H. rewrite (or_falsy _ _ H). reflexivity.
  - intros H. rewrite (or_falsy _ _ H). reflexivity.
  - intros n name Hn Hname -> ->.
    rewrite !or_truthy; [reflexivity | |].
    + destruct name; [contradiction | reflexivity].
    + cbn. destruct (Z.eqb_spec n 0); [lia | reflexivity].
Qed.

Lemma runAutomation_defaults_witness :
  let E := SimEnv [] (mkDocument [] [] []) EmptyString in
  let s := sim_ready [] (mkDocument [] [] []) EmptyString in
  @runAutomation E _ (fun maxTurns _ _ => ret maxTurns) "scroll"
    (mkRunOptions (Js.VStr "gpt-4o") (Js.VNum 0)) s
  = @runAutomation E _ (fun maxTurns _ _ => ret maxTurns) "scroll"
      (mkRunOptions (Js.VStr "gpt-4o") (Js.VNum 25)) s.
Proof.
  intros E s.
  destruct (@runAutomation_defaults E _ (fun maxTurns _ _ => ret maxTurns) "scroll"
              (mkRunOptions (Js.VStr "gpt-4o") (Js.VNum 0)) s) as [H _].
  apply H. reflexivity.
Defined.

(** ** click_element when finding is not clicking *)

Section Selective.

Context {E : Env}.
Variable p : page_handle.
Variables present clickable : string -> bool.
Variable good : world -> Prop.
Hypothesis selective : selective_page p present clickable good.

Lemma clickElement_selective (d : string) (sels : list string) (s : state) :
  page (this s) = Some p -> good (env s) ->
  fst (clickElement_from d sels s)
    = Ok match first_clicked present clickable sels with
         | Some sel => "Successfully clicked " ++ d ++ " using " ++ sel
         | None => "Failed to click " ++ d
         end
  /\ calls (snd (clickElement_from d sels s))
     = (calls s ++ click_trace present clickable sels)%list.
Proof.
  revert s. induction sels as [|sel rest IH]; intros s Hp Hg.
  - cbn. rewrite app_nil_r. auto.
  - cbn [clickElement_from click_trace]. unfold first_clicked. cbn [find].
    unfold try_catch, bind.
    rewrite (waitForSelector_on_page s p sel 3000 Hp).
    pose proof (sp_wait_keeps p present clickable good selective sel 3000 (env s) Hg)
      as Hg1.
    destruct (present sel) eqn:Hpres.
    + rewrite (sp_wait_ok p present clickable good selective sel 3000 (env s) Hg Hpres).
      erewrite click_on_page by exact Hp. cbn [env this calls].
      pose proof (sp_click_keeps p present clickable good selective sel _ Hg1) as Hg2.
      destruct (clickable sel) eqn:Hclick; cbn [andb].
      * rewrite (sp_click_ok p present clickable good selective sel _ Hg1 Hclick).
        unfold ret. cbn [fst snd calls]. rewrite <- app_assoc. auto.
      * destruct (sp_click_fails p present clickable good selective sel _ Hg1 Hclick)
          as [e He].
        rewrite He.
        match goal with
        | |- context [clickElement_from d rest ?s1] =>
            destruct (IH s1 Hp Hg2) as [Hr Hc]
        end.
        split; [exact Hr|]. rewrite Hc. cbn [calls].
        rewrite <- !app_assoc. reflexivity.
    + destruct (sp_wait_fails p present clickable good selective sel 3000 (env s)
                  Hg Hpres) as [e He].
      rewrite He. cbn [andb].
      match goal with
      | |- context [clickElement_from d rest ?s1] =>
          destruct (IH s1 Hp Hg1) as [Hr Hc]
      end.
      split; [exact Hr|]. rewrite Hc. cbn [calls].
      rewrite <- !app_assoc. reflexivity.
Qed.

Lemma waitForElement_selective (t : Z) (sels : list string) (s : state) :
  page (this s) = Some p -> good (env s) ->
  fst (waitForElement sels t s)
    = Ok match find present sels with
         | Some sel => "Element found: " ++ sel
         | None => "No elements found"
         end
  /\ calls (snd (waitForElement sels t s))
     = (calls s ++ map (fun x => CWaitForSelector x t) (up_to present sels))%list.
Proof.
  revert s. induction sels as [|sel rest IH]; intros s Hp Hg.
  - cbn. rewrite app_nil_r. auto.
  - cbn [waitForElement find up_to]. unfold try_catch, bind.
    rewrite (waitForSelector_on_page s p sel t Hp).
    destruct (present sel) eqn:Hpres.
    + rewrite (sp_wait_ok p present clickable good selective sel t (env s) Hg Hpres).
      unfold ret. cbn [fst snd calls map]. auto.
    + destruct (sp_wait_fails p present clickable good selective sel t (env s)
                  Hg Hpres) as [e He].
      rewrite He.
      pose proof (sp_wait_keeps p present clickable good selective sel t (env s) Hg)
        as Hg1.
      match goal with
      | |- context [waitForElement rest t ?s1] =>
          destruct (IH s1 Hp Hg1) as [Hr Hc]
      end.
      split; [exact Hr|]. rewrite Hc. cbn [calls map].
      rewrite <- !app_assoc. reflexivity.
Qed.

End Selective.

(** On the simulated page a selector that is found can be clicked. *)
Lemma sim_selective_page (matching : list string) (b : nat) :
  @selective_page (SimEnv matching (mkDocument [] [] []) EmptyString) b
    (Sim.resolves matching) (Sim.resolves matching)
    (fun w => Sim.is_connected b w = true).
Proof.
  constructor; cbn; unfold Sim.on_page; intros;
    repeat match goal with
           | H : Sim.is_connected _ _ = true |- _ => rewrite H
           | H : Sim.resolves _ _ = _ |- _ => rewrite H
           end; cbn; try reflexivity; try assumption;
    eexists; reflexivity.
Qed.

Lemma covered_selective_page (found enabled : list string) :
  @selective_page (CoveredEnv found enabled) tt
    (Sim.resolves found) (Sim.resolves enabled) (fun _ => True).
Proof.
  constructor; cbn; intros;
    repeat match goal with
           | H : Sim.resolves _ _ = _ |- _ => rewrite H
           end; cbn; try reflexivity; try exact I;
    eexists; reflexivity.
Qed.

(** X6: on a page where some selectors are found and only some of those can
    be clicked, [click_element] reports the first candidate that is both
    found and clicked, or failure when there is none; on the way it has
    tried to click every found candidate before it, and it looks at nothing
    after it, a second match included. *)
Theorem clickElement_first_clickable {E : Env} (p : page_handle)
    (present clickable : string -> bool) (good : world -> Prop)
    (s : state) (selectors : list string) (description : string) :
  selective_page p present clickable good ->
  page (this s) = Some p ->
  good (env s) ->
  returns (clickElement selectors description) s
    match first_clicked present clickable selectors with
    | Some sel => "Successfully clicked " ++ description ++ " using " ++ sel
    | None => "Failed to click " ++ description
    end /\
  issues (clickElement selectors description) s
    (click_trace present clickable selectors).
Proof.
  intros Hsel Hp Hg.
  exact (clickElement_selective p present clickable good Hsel description
           selectors s Hp Hg).
Qed.

Lemma clickElement_first_clickable_witness :
  let E := CoveredEnv ["#covered"; "#ok"; "#also"] ["#ok"; "#also"] in
  let s := covered_ready ["#covered"; "#ok"; "#also"] ["#ok"; "#also"] in
  @returns E _ (@clickElement E ["#none"; "#covered"; "#ok"; "#also"] "OK") s
    "Successfully clicked OK using #ok"
  /\ @issues E _ (@clickElement E ["#none"; "#covered"; "#ok"; "#also"] "OK") s
       [CWaitForSelector "#none" 3000;
        CWaitForSelector "#covered" 3000; CClick "#covered";
        CWaitForSelector "#ok" 3000; CClick "#ok"].
Proof.
  intros E s.
  exact (@clickElement_first_clickable E tt
           (Sim.resolves ["#covered"; "#ok"; "#also"]) (Sim.resolves ["#ok"; "#also"])
           (fun _ => True) s
           ["#none"; "#covered"; "#ok"; "#also"] "OK"
           (covered_selective_page ["#covered"; "#ok"; "#also"] ["#ok"; "#also"])
           eq_refl I).
Defined.

(** ** wait_for_element *)

(** X7: [wait_for_element] reports the first selector that appears, waiting
    for each candidate before it with the caller's timeout and for none after
    it; it reports that nothing was found when no candidate appears. *)
Theorem waitForElement_first_found {E : Env} (p : page_handle)
    (present clickable : string -> bool) (good : world -> Prop)
    (s : state) (selectors : list string) (t : Z) :
  selective_page p present clickable good ->
  page (this s) = Some p ->
  good (env s) ->
  returns (waitForElement selectors t) s
    match find present selectors with
    | Some sel => "Element found: " ++ sel
    | None => "No elements found"
    end /\
  issues (waitForElement selectors t) s
    (map (fun x => CWaitForSelector x t) (up_to present selectors)).
Proof.
  intros Hsel Hp Hg.
  exact (waitForElement_selective p present clickable good Hsel t selectors s Hp Hg).
Qed.

Lemma waitForElement_first_found_witness :
  let E := SimEnv ["#ok"; "#also"] (mkDocument [] [] []) EmptyString in
  let s := sim_ready ["#ok"; "#also"] (mkDocument [] [] []) EmptyString in
  @returns E _ (@waitForElement E ["#none"; "#ok"; "#also"] 500) s "Element found: #ok"
  /\ @issues E _ (@waitForElement E ["#none"; "#ok"; "#also"] 500) s
       [CWaitForSelector "#none" 500; CWaitForSelector "#ok" 500].
Proof.
  intros E s.
  exact (@waitForElement_first_found E 0%nat
           (Sim.resolves ["#ok"; "#also"]) (Sim.resolves ["#ok"; "#also"])
           (fun w => Sim.is_connected 0 w = true) s
           ["#none"; "#ok"; "#also"] 500
           (sim_selective_page ["#ok"; "#also"] 0) eq_refl eq_refl).
Defined.

(** ** fill_form on any page *)

Lemma fill_fields_count {E : Env} (fields : list form_field) (n : Z) (s : state) :
  exists k, fst (fill_fields fields n s) = Ok k
            /\ n <= k <= n + Z.of_nat (List.length fields).
Proof.
  revert n s. induction fields as [|f rest IH]; intros n s.
  - exists n. cbn. split; [reflexivity | lia].
  - cbn [fill_fields]. unfold bind.
    destruct (fill_field_never_throws f (selectors f) s) as [b Hb].
    destruct (fill_field f (selectors f) s) as [r s1]. cbn [fst] in Hb. subst r.
    destruct (IH (if b then n + 1 else n) s1) as (k & Hk & Hbound).
    exists k. split; [exact Hk|].
    cbn [List.length]. destruct b; lia.
Qed.

(** X8: whatever the page does, [fill_form] returns ["Filled k/N form
    fields"] with [0 <= k <= N], [N] the number of fields: a field counts at
    most once, however many of its selectors there are. *)
Theorem fillForm_count_bounded {E : Env} (fields : list form_field) (s : state) :
  exists k,
    returns (fillForm fields) s
      ("Filled " ++ Js.num_to_string k ++ "/"
       ++ Js.num_to_string (Z.of_nat (List.length fields)) ++ " form fields")
    /\ 0 <= k <= Z.of_nat (List.length fields).
Proof.
  destruct (fill_fields_count fields 0 s) as (k & Hk & Hbound).
  exists k. split; [|lia].
  unfold returns, fillForm, bind.
  destruct (fill_fields fields 0 s) as [r s1]. cbn [fst] in Hk. subst r.
  reflexivity.
Qed.

Lemma fill_fields_shift {E : Env} (fields : list form_field) (n m : Z) (s : state) :
  fill_fields fields (n + m) s
  = match fill_fields fields n s with
    | (Ok k, s') => (Ok (k + m), s')
    | (Throw e, s') => (Throw e, s')
    end.
Proof.
  revert n s. induction fields as [|f rest IH]; intros n s.
  - reflexivity.
  - cbn [fill_fields]. unfold bind.
    destruct (fill_field f (selectors f) s) as [[b|e] s1]; [|reflexivity].
    destruct b; [|apply IH].
    replace (n + m + 1) with (n + 1 + m) by lia. apply IH.
Qed.

(** X9: filling a batch is filling its first part and then, from where that
    left the page, its second part: the counts add up and nothing of the
    first part's outcome changes how the second is processed. *)
Theorem fill_fields_app {E : Env} (first second : list form_field) (n : Z) (s : state) :
  fill_fields (first ++ second) n s
  = bind (fill_fields first n) (fill_fields second) s
  /\ forall k1 k2 s1,
       fill_fields first 0 s = (Ok k1, s1) ->
       fst (fill_fields second 0 s1) = Ok k2 ->
       fst (fill_fields (first ++ second) 0 s) = Ok (k1 + k2).
Proof.
  assert (Happ : forall l n s,
            fill_fields (l ++ second) n s = bind (fill_fields l n) (fill_fields second) s).
  { clear. intros l. induction l as [|f rest IH]; intros n s.
    - reflexivity.
    - cbn [app fill_fields]. unfold bind.
      destruct (fill_field f (selectors f) s) as [[b|e] s1]; [|reflexivity].
      rewrite IH. reflexivity. }
  split; [apply Happ|].
  intros k1 k2 s1 H1 H2. rewrite Happ. unfold bind. rewrite H1.
  pose proof (fill_fields_shift second 0 k1 s1) as Hs. cbn [Z.add] in Hs.
  rewrite Hs. destruct (fill_fields second 0 s1) as [r s2].
  cbn [fst] in H2. subst r. cbn [fst]. f_equal. lia.
Qed.

Lemma fill_fields_app_witness :
  let E := SimEnv ["#email"] (mkDocument [] [] []) EmptyString in
  let s := sim_ready ["#email"] (mkDocument [] [] []) EmptyString in
  fst (@fill_fields E ([mkField "email" "a@b.c" ["#email"]]
                       ++ [mkField "phone" "555" ["#phone"]]) 0 s)
  = Ok (1 + 0).
Proof.
  intros E s.
  destruct (@fill_fields_app E [mkField "email" "a@b.c" ["#email"]]
              [mkField "phone" "555" ["#phone"]] 0 s) as [_ H].
  eapply H; reflexivity.
Defined.

(** ** Tools that only look *)

Section ReadOnly.

Context {E : Env}.

Lemma waitForElement_only_waits (sels : list string) (t : Z) :
  frame not_input (waitForElement sels t).
Proof.
  induction sels as [|sel rest IH]; cbn [waitForElement].
  - apply frame_ret.
  - apply frame_try_catch; [|intros _; exact IH].
    unfold waitForSelector. frames.
Qed.

End ReadOnly.

(** X10: apart from [click_element] and [fill_form], no tool clicks, presses
    a key or types; these tools leave the engine's fields as they are. *)
Theorem read_only_tools {E : Env} (i : invocation) :
  acts_on_page i = false -> frame not_input (dispatch i).
Proof.
  destruct i as [url|name_|sels description|fields| |sels t|d amount| ];
    cbn [acts_on_page dispatch]; intros Hi; try discriminate;
    (apply frame_bind; [|intros; apply frame_ret]).
  - unfold openBrowser. frames.
  - unfold takeScreenshot. frames.
  - unfold analyzeForm. frames.
  - apply waitForElement_only_waits.
  - unfold scrollPage. destruct (scrollMap amount d). frames.
  - unfold closeBrowser. apply frame_try_catch; [|intros; apply frame_ret].
    apply frame_bind; [apply frame_get_this|]. intros this_.
    apply frame_bind; [|intros; apply frame_ret].
    destruct (browser this_); [|apply frame_ret].
    unfold close. frames.
Qed.

Lemma read_only_tools_witness :
  let E := SimEnv [] (mkDocument [] [] []) EmptyString in
  @frame E _ not_input (@dispatch E (WaitForElement ["#a"; "#b"] 100)).
Proof.
  intros E. apply (@read_only_tools E (WaitForElement ["#a"; "#b"] 100)). reflexivity.
Defined.

(** ** analyze_form: what the summary holds *)

Lemma split_space_first_no_space (s : string) :
  no_space (Js.split_space_first s) = true.
Proof.
  unfold no_space. induction s as [|c s IH]; [reflexivity|].
  cbn [Js.split_space_first]. destruct (Ascii.eqb c " ") eqn:Hc; [reflexivity|].
  cbn [list_ascii_of_string forallb]. rewrite Hc. exact IH.
Qed.

(** X11: in every summary an input's [type] is never empty (an input
    without one is reported as ["text"]), a class name holds one class only
    (no space), a link's [href] has at most 100 characters, each button is a
    visible one, and the whole summary has at most 25 entries. *)
Theorem formAnalysis_bounded (d : document) (a : form_analysis) :
  formAnalysis d = Ok a ->
  (forall x, In x (inputs a) ->
     is_type x <> EmptyString /\ no_space (is_className x) = true) /\
  (forall x, In x (buttons a) ->
     no_space (bs_className x) = true
     /\ exists b, In b (q_buttons d) /\ bt_visible b = true
                   /\ summarize_button b = Ok x) /\
  (forall x, In x (links a) -> (String.length (ls_href x) <= 100)%nat) /\
  (List.length (inputs a) + List.length (buttons a) + List.length (links a) <= 25)%nat.
Proof.
  intros Ha. destruct (formAnalysis_ok d a Ha) as (Hins & Hbs & Hls).
  apply map_result_ok in Hins. apply map_result_ok in Hbs. apply map_result_ok in Hls.
  split; [|split; [|split]].
  - intros x Hx. clear - Hins Hx.
    induction Hins as [|i y l l' Hiy _ IH]; [destruct Hx|].
    destruct Hx as [<-|Hx]; [|apply IH; exact Hx].
    unfold summarize_input, first_class in Hiy.
    destruct (in_className i) as [classes|]; [|discriminate].
    inversion Hiy. cbn [is_type is_className]. split.
    + destruct (in_type i) as [[|c t]|]; discriminate.
    + rewrite str_or_empty. apply split_space_first_no_space.
  - intros x Hx.
    pose proof (Forall_firstn_filter bt_visible 5 (q_buttons d)) as Hvis.
    clear Hins Hls Ha. revert Hvis.
    induction Hbs as [|b y bs bs' Hby _ IH]; intros Hvis; [destruct Hx|].
    destruct Hx as [<-|Hx]; [|apply IH; [exact Hx | exact (Forall_inv_tail Hvis)]].
    destruct (Forall_inv Hvis) as [Hin Hv]. split; [|exists b; auto].
    unfold summarize_button, first_class in Hby.
    destruct (bt_className b) as [classes|]; [|discriminate].
    inversion Hby. cbn [bs_className]. rewrite str_or_empty.
    apply split_space_first_no_space.
  - intros x Hx. clear - Hls Hx.
    induction Hls as [|l y ls ls' Hly _ IH]; [destruct Hx|].
    destruct Hx as [<-|Hx]; [|apply IH; exact Hx].
    unfold summarize_link, short_href in Hly.
    destruct (an_href l) as [href|]; [|discriminate].
    inversion Hly. cbn [ls_href]. rewrite str_or_empty. apply substring0_length.
  - rewrite <- (Forall2_length Hins), <- (Forall2_length Hbs), <- (Forall2_length Hls).
    rewrite !firstn_filter_length. lia.
Qed.

Lemma formAnalysis_bounded_witness :
  exists a, formAnalysis fifteen_inputs = Ok a
            /\ (List.length (inputs a) + List.length (buttons a)
                + List.length (links a) <= 25)%nat.
Proof.
  eexists. split; [reflexivity|].
  apply (formAnalysis_bounded fifteen_inputs _ eq_refl).
Defined.

(** X12: when the page cannot be evaluated [analyze_form] returns the
    object [{ error: "Form analysis failed: <message>" }] instead of
    throwing, after the one [evaluate] call; with no page it calls nothing. *)
Theorem analyzeForm_error_object {E : Env} (s : state) :
  (forall p e, page (this s) = Some p ->
     fst (page_document p (env s)) = Throw e ->
     returns analyzeForm s (AnalysisError ("Form analysis failed: " ++ message e))
     /\ issues analyzeForm s [CEvaluate]) /\
  (page (this s) = None ->
     analyzeForm s
     = (Ok (AnalysisError
              ("Form analysis failed: " ++ message (null_property "evaluate"))), s)).
Proof.
  unfold returns, issues, analyzeForm, try_catch, bind. split.
  - intros p e Hp He. rewrite (the_page_some s p _ Hp). unfold perform, evaluate.
    destruct (page_document p (env s)) as [r w]. cbn [fst] in He. subst r.
    cbn [fst snd calls ret]. auto.
  - intros Hp. rewrite (the_page_none s _ Hp). reflexivity.
Qed.

Lemma analyzeForm_error_object_witness :
  let E := SimEnv [] (mkDocument [] [] []) EmptyString in
  let closed := snd (@closeBrowser E (sim_ready [] (mkDocument [] [] []) EmptyString)) in
  @returns E _ (@analyzeForm E) closed
    (AnalysisError
       "Form analysis failed: Target page, context or browser has been closed").
Proof.
  intros E closed.
  destruct (@analyzeForm_error_object E closed) as [H _].
  destruct (H 0%nat Sim.target_closed eq_refl eq_refl) as [Hr _]. exact Hr.
Defined.

(** ** scroll_page: directions and results *)



(** ** take_screenshot: failures and the time stamp *)

Lemma replace_class_sanitized (iso : string) :
  no_colon_or_dot (Js.replace_class Js.colon_or_dot "-" iso) = true
  /\ String.length (Js.replace_class Js.colon_or_dot "-" iso) = String.length iso.
Proof.
  unfold no_colon_or_dot. induction iso as [|c iso [IH1 IH2]]; [split; reflexivity|].
  cbn [Js.replace_class]. destruct (Js.colon_or_dot c) eqn:Hc.
  - cbn. rewrite IH2. split; [exact IH1 | reflexivity].
  - cbn [list_ascii_of_string forallb String.length]. rewrite Hc, IH2.
    split; [exact IH1 | reflexivity].
Qed.

(** X14: [take_screenshot] reads the clock before it touches the page.  With
    no page it takes no screenshot and returns ["Screenshot failed: ..."];
    when the capture throws it returns the failure with that error's message.
    The time stamp in the file name is as long as the ISO string and holds
    neither [':'] nor ['.']. *)
Theorem takeScreenshot_failures {E : Env} (s : state) (name : option string) :
  let filename := screenshot_filename name (Js.toISOString (clock_now (env s))) in
  let path := Js.to_string (screenshotPath (this s)) ++ "/" ++ filename in
  (page (this s) = None ->
     takeScreenshot name s
     = (Ok ("Screenshot failed: " ++ message (null_property "screenshot")),
        mkState (this s) (env s) (calls s ++ [CNow]))) /\
  (forall p e, page (this s) = Some p ->
     fst (page_screenshot p path false (env s)) = Throw e ->
     returns (takeScreenshot name) s ("Screenshot failed: " ++ message e)
     /\ issues (takeScreenshot name) s [CNow; CScreenshot path false]) /\
  (forall iso,
     no_colon_or_dot (Js.replace_class Js.colon_or_dot "-" iso) = true
     /\ String.length (Js.replace_class Js.colon_or_dot "-" iso) = String.length iso).
Proof.
  intros filename path. split; [|split].
  - intros Hp. unfold takeScreenshot, try_catch, bind, query.
    erewrite the_page_none by exact Hp. reflexivity.
  - intros p e Hp He. unfold returns, issues, takeScreenshot, try_catch, bind, query.
    erewrite the_page_some by exact Hp. unfold get_this, perform.
    cbn [this env calls]. fold filename. fold path.
    destruct (page_screenshot p path false (env s)) as [r w].
    cbn [fst] in He. subst r. cbn [fst snd calls ret].
    rewrite <- app_assoc. auto.
  - exact replace_class_sanitized.
Qed.

Lemma takeScreenshot_failures_witness :
  let E := SimEnv [] (mkDocument [] [] []) EmptyString in
  let s := sim_blank [] (mkDocument [] [] []) EmptyString in
  @takeScreenshot E (Some "home") s
  = (Ok "Screenshot failed: Cannot read properties of null (reading 'screenshot')",
     @mkState E (this s) (env s) [CNow]).
Proof.
  intros E s.
  destruct (@takeScreenshot_failures E s (Some "home")) as [H _].
  apply H. reflexivity.
Defined.

(** ** From the options to the browser *)

Section Options.

Context {E : Env}.

Lemma initialize_keeps_options (s : state) :
  headless (this (snd (initialize s))) = headless (this s)
  /\ slowMo (this (snd (initialize s))) = slowMo (this s)
  /\ timeout (this (snd (initialize s))) = timeout (this s)
  /\ screenshotPath (this (snd (initialize s))) = screenshotPath (this s).
Proof.
  unfold initialize, the_browser.
  unfold try_catch, bind, get_this, set_this, perform, ret, throw.
  cbn [this env calls].
  destruct (chromium_launch (headless (this s)) (slowMo (this s)) (env s))
    as [[b|e] w1]; cbn [this env calls browser snd]; [|auto].
  destruct (browser_newPage b w1) as [[p|e] w2];
    cbn [snd this headless slowMo timeout screenshotPath]; auto.
Qed.

Lemma openBrowser_goto_first (s : state) (p : page_handle) (url : string) :
  page (this s) = Some p ->
  exists cs, issues (openBrowser url) s (CGoto url (timeout (this s)) :: cs).
Proof.
  intros Hp. unfold issues, openBrowser, try_catch, bind.
  rewrite (the_page_some s p _ Hp). unfold get_this, perform.
  destruct (page_goto p url (timeout (this s)) (env s)) as [[[]|e] w].
  - erewrite the_page_some by exact Hp. cbn [env calls this].
    destruct (page_title p w) as [[title|e] w']; cbn [snd calls ret];
      exists [CTitle]; rewrite <- app_assoc; reflexivity.
  - exists []. reflexivity.
Qed.

End Options.

(** X15: the options given to the constructor reach the browser: after
    [new WebAutomationEngine(options)] and a successful [initialize], the
    launch was made with [options.headless || false] and
    [options.slowMo || 1000], and [open_browser] navigates with
    [options.timeout || 30000]. *)
Theorem options_reach_browser {E : Env} (o : options) (s : state) (url : string) :
  let s1 := snd (constructor o s) in
  let s2 := snd (initialize s1) in
  fst (initialize s1) = Ok true ->
  issues initialize s1
    [CLaunch (Js.or (opt_headless o) (Js.VBool false))
       (Js.or (opt_slowMo o) (Js.VNum 1000)); CNewPage] /\
  exists cs,
    issues (openBrowser url) s2
      (CGoto url (Js.or (opt_timeout o) (Js.VNum 30000)) :: cs).
Proof.
  intros s1 s2 Hinit.
  destruct (initialize_success s1 Hinit) as (b & p & _ & Hp & Hcalls).
  destruct (initialize_keeps_options s1) as (_ & _ & Ht & _).
  destruct (openBrowser_goto_first s2 p url Hp) as [cs Hcs].
  subst s1 s2. rewrite Ht in Hcs. rewrite constructor_this in Hcalls, Hcs.
  cbn [headless slowMo timeout] in Hcalls, Hcs.
  split; [exact Hcalls | exists cs; exact Hcs].
Qed.

Lemma options_reach_browser_witness :
  let E := SimEnv [] (mkDocument [] [] []) EmptyString in
  let o := mkOptions (Js.VBool true) (Js.VNum 250) (Js.VNum 5000) Js.VUndefined in
  let s1 := snd (@constructor E o (sim_blank [] (mkDocument [] [] []) EmptyString)) in
  @issues E _ (@initialize E) s1 [CLaunch (Js.VBool true) (Js.VNum 250); CNewPage].
Proof.
  intros E o s1.
  destruct (@options_reach_browser E o (sim_blank [] (mkDocument [] [] []) EmptyString)
              "https://example.com" eq_refl) as [H _].
  exact H.
Defined.

(** ** The command line *)

(** *** Numbers on the command line *)

Ltac eval_digit :=
  match goal with
  | |- context [Cli.digit_of 10 ?c] =>
      let v := eval vm_compute in (Cli.digit_of 10 c) in
      change (Cli.digit_of 10 c) with v; cbv beta iota
  end.

Lemma parse_digits_acc (u : Decimal.uint) (a : positive) :
  Cli.parse_digits 10 (NilEmpty.string_of_uint u) (Some (Z.pos a))
  = Some (Z.pos (Pos.of_uint_acc u a)).
Proof.
  revert a. induction u; intros a; cbn [NilEmpty.string_of_uint Pos.of_uint_acc];
    [reflexivity | ..];
    cbn [Cli.parse_digits]; eval_digit;
    rewrite <- IHu; f_equal; f_equal; lia.
Qed.

Lemma parse_digits_zero (u : Decimal.uint) :
  Cli.parse_digits 10 (NilEmpty.string_of_uint u) (Some 0)
  = Some (Z.of_N (Pos.of_uint u)).
Proof.
  induction u; cbn [NilEmpty.string_of_uint Pos.of_uint]; [reflexivity | ..];
    cbn [Cli.parse_digits]; eval_digit;
    first [exact IHu | apply parse_digits_acc].
Qed.

Lemma parse_digits_uint (u : Decimal.uint) :
  u <> Decimal.Nil ->
  Cli.parse_digits 10 (NilEmpty.string_of_uint u) None
  = Some (Z.of_N (Pos.of_uint u)).
Proof.
  destruct u; intros Hu; [contradiction | ..];
    cbn [NilEmpty.string_of_uint Pos.of_uint];
    cbn [Cli.parse_digits]; eval_digit;
    first [apply parse_digits_zero | apply parse_digits_acc].
Qed.

(** A printed numeral starts with a digit and is no [0x] numeral. *)
Lemma parseInt_uint (u : Decimal.uint) :
  u <> Decimal.Nil ->
  Cli.parseInt (NilEmpty.string_of_uint u) = Js.VNum (Z.of_N (Pos.of_uint u))
  /\ Cli.parseInt (String "-" (NilEmpty.string_of_uint u))
     = Js.VNum (- Z.of_N (Pos.of_uint u)).
Proof.
  intros Hu. pose proof (parse_digits_uint u Hu) as Hparse.
  destruct u as [|u|u|u|u|u|u|u|u|u|u]; [contradiction | ..];
    try (unfold Cli.parseInt; cbn [NilEmpty.string_of_uint] in *;
         cbn [Js.trim_start]; cbv [Js.is_space]; cbn -[Cli.parse_digits Pos.of_uint];
         rewrite Hparse; split; reflexivity).
  destruct u as [|u|u|u|u|u|u|u|u|u|u];
    unfold Cli.parseInt; cbn [NilEmpty.string_of_uint] in *;
    cbn [Js.trim_start]; cbv [Js.is_space]; cbn -[Cli.parse_digits Pos.of_uint];
    rewrite Hparse; split; reflexivity.
Qed.

Lemma string_of_uint_nonnil (u : Decimal.uint) :
  u <> Decimal.Nil -> NilZero.string_of_uint u = NilEmpty.string_of_uint u.
Proof. destruct u; [contradiction | reflexivity ..]. Qed.

(** Printing an integer and reading it back gives the integer (of these two
    functions; of the program, up to 2^53). *)
Lemma parseInt_num_to_string (n : Z) :
  Cli.parseInt (Js.num_to_string n) = Js.VNum n.
Proof.
  unfold Js.num_to_string. destruct n as [|p|p]; [reflexivity | |];
    cbn [Z.to_int NilZero.string_of_int];
    rewrite (string_of_uint_nonnil _ (DecimalPos.Unsigned.to_uint_nonnil p));
    destruct (parseInt_uint (Pos.to_uint p) (DecimalPos.Unsigned.to_uint_nonnil p))
      as [Hpos Hneg].
  - rewrite Hpos, DecimalPos.Unsigned.of_to. reflexivity.
  - rewrite Hneg, DecimalPos.Unsigned.of_to. reflexivity.
Qed.

(** What [parseInt(x) || d] is for a printed positive number and for text
    that does not start with a number. *)
Lemma parsed_or_default (text : string) (d n : Z) :
  0 < n <= 2 ^ 53 -> text = Js.num_to_string n ->
  Js.or (Cli.parseInt text) (Js.VNum d) = Js.VNum n.
Proof.
  intros [Hn _] ->. rewrite parseInt_num_to_string. apply or_truthy.
  cbn. destruct (Z.eqb_spec n 0); [lia | reflexivity].
Qed.

(** X16: a number given to [automate] as decimal text reaches the engine as
    that number when it is positive and at most 2^53, the range in which
    [parseInt] is exact: [--slow n] launches the browser with [slowMo: n],
    [--timeout n] sets the page timeout to [n], [--max-turns n] configures
    [maxTurns: n].  Text that [parseInt] reads as 0 or as no number at all,
    such as ["0"], ["fast"] or the empty string, gives the defaults 1000,
    30000 and 25. *)
Theorem automate_numeric_options {E : Env} (o : Cli.automate_options) (s : state) :
  let s1 := snd (constructor (Cli.engine_options o) s) in
  (forall n, 0 < n <= 2 ^ 53 -> Cli.slow o = Js.num_to_string n ->
     exists cs, issues initialize s1
                  (CLaunch (Js.VBool (Cli.headless o)) (Js.VNum n) :: cs)) /\
  (forall n, 0 < n <= 2 ^ 53 -> Cli.timeout o = Js.num_to_string n ->
     timeout (this s1) = Js.VNum n) /\
  (forall n, 0 < n <= 2 ^ 53 -> Cli.maxTurns o = Js.num_to_string n ->
     Js.or (opt_maxTurns (Cli.run_options o)) (Js.VNum 25) = Js.VNum n) /\
  (Js.truthy (Cli.parseInt (Cli.slow o)) = false ->
     exists cs, issues initialize s1
                  (CLaunch (Js.VBool (Cli.headless o)) (Js.VNum 1000) :: cs)) /\
  (Js.truthy (Cli.parseInt (Cli.timeout o)) = false ->
     timeout (this s1) = Js.VNum 30000) /\
  (Js.truthy (Cli.parseInt (Cli.maxTurns o)) = false ->
     Js.or (opt_maxTurns (Cli.run_options o)) (Js.VNum 25) = Js.VNum 25) /\
  Js.truthy (Cli.parseInt "0") = false /\
  Js.truthy (Cli.parseInt "fast") = false /\
  Js.truthy (Cli.parseInt EmptyString) = false.
Proof.
  intros s1.
  assert (Hthis : this s1 =
            {| headless := Js.or (Js.VBool (Cli.headless o)) (Js.VBool false);
               slowMo := Js.or (Cli.parseInt (Cli.slow o)) (Js.VNum 1000);
               timeout := Js.or (Cli.parseInt (Cli.timeout o)) (Js.VNum 30000);
               screenshotPath :=
                 Js.or (Js.VStr (Cli.screenshots o)) (Js.VStr "./screenshots");
               browser := None; page := None |}).
  { subst s1. rewrite constructor_this. reflexivity. }
  assert (Hhead : Js.or (Js.VBool (Cli.headless o)) (Js.VBool false)
                  = Js.VBool (Cli.headless o)).
  { destruct (Cli.headless o); reflexivity. }
  destruct (initialize_launches s1) as [cs Hcs].
  rewrite Hthis in Hcs. cbn [headless slowMo] in Hcs. rewrite Hhead in Hcs.
  repeat split.
  - intros n Hn Hslow. exists cs.
    rewrite (parsed_or_default _ 1000 n Hn Hslow) in Hcs. exact Hcs.
  - intros n Hn Htime. rewrite Hthis. cbn [timeout].
    apply parsed_or_default; assumption.
  - intros n Hn Hturns. cbn [Cli.run_options opt_maxTurns].
    apply parsed_or_default; assumption.
  - intros Hfalsy. exists cs. rewrite (or_falsy _ _ Hfalsy) in Hcs. exact Hcs.
  - intros Hfalsy. rewrite Hthis. cbn [timeout]. apply or_falsy. exact Hfalsy.
  - intros Hfalsy. cbn [Cli.run_options opt_maxTurns]. apply or_falsy. exact Hfalsy.
Qed.

Lemma automate_numeric_options_witness :
  let E := SimEnv [] (mkDocument [] [] []) EmptyString in
  let o := Cli.mkAutomate "https://example.com" "log in" true "250" "gpt-4o-mini"
             "40" "5000" "./shots" in
  let s1 := snd (@constructor E (Cli.engine_options o)
                   (sim_blank [] (mkDocument [] [] []) EmptyString)) in
  (exists cs, @issues E _ (@initialize E) s1
                (CLaunch (Js.VBool true) (Js.VNum 250) :: cs))
  /\ timeout (this s1) = Js.VNum 5000.
Proof.
  intros E o s1.
  destruct (@automate_numeric_options E o (sim_blank [] (mkDocument [] [] []) EmptyString))
    as (Hslow & Htime & _).
  split.
  - apply (Hslow 250); [split; [reflexivity | discriminate] | reflexivity].
  - apply (Htime 5000); [split; [reflexivity | discriminate] | reflexivity].
Defined.

(** *** How the actions end *)

Section Endings.

Context {E : Env}.

Lemma initialize_returns_true (s : state) (b : bool) :
  fst (initialize s) = Ok b -> b = true.
Proof.
  unfold initialize, the_browser.
  unfold try_catch, bind, get_this, set_this, perform, ret, throw.
  cbn [this env calls].
  destruct (chromium_launch (headless (this s)) (slowMo (this s)) (env s))
    as [[h|e] w1]; cbn [this env calls browser fst]; [|discriminate].
  destruct (browser_newPage h w1) as [[p|e] w2]; cbn [fst]; [|discriminate].
  intros H. inversion H. reflexivity.
Qed.

End Endings.

(** X17: [automate] never lets an error escape: it ends with exit code 1
    when the screenshot directory cannot be made (nothing is launched), when
    the browser cannot be initialized (the runner is never started), or when
    [runAutomation] throws; otherwise it returns what [runAutomation]
    returned, run on the full task text with the engine as [initialize] left
    it. *)
Theorem automate_endings {E : Env} {R : Type}
    (run : Js.value -> Js.value -> string -> M R)
    (o : Cli.automate_options) (s : state) :
  let s1 := snd (constructor (Cli.engine_options o) s) in
  let s2 := snd (initialize s1) in
  let running :=
    runAutomation run (Cli.fullTask (Cli.url o) (Cli.task o)) (Cli.run_options o) s2 in
  (exists r, fst (automate run o s) = Ok r) /\
  (forall e, fst (constructor (Cli.engine_options o) s) = Throw e ->
     automate run o s = (Ok (Cli.Exited 1), s1)) /\
  (forall e, fst (constructor (Cli.engine_options o) s) = Ok tt ->
     fst (initialize s1) = Throw e ->
     automate run o s = (Ok (Cli.Exited 1), s2)) /\
  (forall r, fst (constructor (Cli.engine_options o) s) = Ok tt ->
     fst (initialize s1) = Ok true -> fst running = Ok r ->
     automate run o s = (Ok (Cli.Returned r), snd running)) /\
  (forall e, fst (constructor (Cli.engine_options o) s) = Ok tt ->
     fst (initialize s1) = Ok true -> fst running = Throw e ->
     automate run o s = (Ok (Cli.Exited 1), snd running)).
Proof.
  intros s1 s2 running. subst running s2 s1.
  unfold automate, try_catch, bind.
  destruct (constructor (Cli.engine_options o) s) as [[[]|e0] s1]; cbn [fst snd].
  2: { repeat split; intros; try discriminate; try reflexivity;
    try (eexists; reflexivity). }
  destruct (initialize s1) as [[b|e1] s2] eqn:Hinit; cbn [fst snd].
  2: { repeat split; intros; try discriminate; try reflexivity;
    try (eexists; reflexivity). }
  destruct (runAutomation run (Cli.fullTask (Cli.url o) (Cli.task o))
              (Cli.run_options o) s2) as [[r|e2] s3]; cbn [fst snd ret].
  - repeat split; intros; try discriminate; try (eexists; reflexivity).
    match goal with H : Ok _ = Ok _ |- _ => inversion H end. reflexivity.
  - repeat split; intros; try discriminate; try reflexivity;
    try (eexists; reflexivity).
Qed.

Lemma automate_endings_witness :
  @automate BrokenEnv unit (fun _ _ _ => ret tt)
    (Cli.automate_defaults "https://example.com" "log in") broken_blank
  = (Ok (Cli.Exited 1),
     snd (@initialize BrokenEnv
            (snd (@constructor BrokenEnv
                    (Cli.engine_options
                       (Cli.automate_defaults "https://example.com" "log in"))
                    broken_blank)))).
Proof.
  destruct (@automate_endings BrokenEnv unit (fun _ _ _ => ret tt)
              (Cli.automate_defaults "https://example.com" "log in") broken_blank)
    as (_ & _ & H & _).
  apply (H (Error "Executable doesn't exist")); reflexivity.
Defined.

(** X18: without an API key [test] launches nothing and simply returns (it
    does not exit with code 1).  With a key it builds a headless engine with
    the default delay, and when the browser comes up connected it closes it
    again before returning; when the browser cannot be initialized it exits
    with code 1. *)
Theorem test_action {E : Env} (api_key : Js.value) (s : state) :
  let s1 := snd (constructor Cli.test_options s) in
  let s2 := snd (initialize s1) in
  (Js.truthy api_key = false -> test api_key s = (Ok (Cli.Returned tt), s)) /\
  (exists cs,
     issues initialize s1 (CLaunch (Js.VBool true) (Js.VNum 1000) :: cs)) /\
  (forall e, Js.truthy api_key = true ->
     fst (constructor Cli.test_options s) = Ok tt ->
     fst (initialize s1) = Throw e ->
     test api_key s = (Ok (Cli.Exited 1), s2)) /\
  (forall b, Js.truthy api_key = true ->
     fst (constructor Cli.test_options s) = Ok tt ->
     fst (initialize s1) = Ok true ->
     browser (this s2) = Some b ->
     browser_isConnected b (env s2) = true ->
     fst (browser_close b (env s2)) = Ok tt ->
     test api_key s
     = (Ok (Cli.Returned tt),
        mkState (this s2) (snd (browser_close b (env s2)))
          (calls s2 ++ [CIsConnected; CClose]))).
Proof.
  intros s1 s2. split; [|split; [|split]].
  - intros Hkey. unfold test, try_catch. rewrite Hkey. reflexivity.
  - destruct (initialize_launches s1) as [cs Hcs]. exists cs.
    subst s1. rewrite constructor_this in Hcs. exact Hcs.
  - intros e Hkey Hcons Hinit. subst s2 s1. unfold test, try_catch, bind.
    rewrite Hkey. cbn [negb].
    destruct (constructor Cli.test_options s) as [r s1]. cbn [fst snd] in *.
    subst r. destruct (initialize s1) as [r s2]. cbn [fst snd] in *. subst r.
    reflexivity.
  - intros b Hkey Hcons Hinit Hb Hconn Hclose. subst s2 s1.
    unfold test, try_catch, bind. rewrite Hkey. cbn [negb].
    destruct (constructor Cli.test_options s) as [r s1]. cbn [fst snd] in *.
    subst r. destruct (initialize s1) as [r s2]. cbn [fst snd] in *. subst r.
    rewrite (cleanup_connected s2 b Hb Hconn). rewrite Hclose. reflexivity.
Qed.

Lemma test_action_witness :
  let E := SimEnv [] (mkDocument [] [] []) EmptyString in
  let s := sim_blank [] (mkDocument [] [] []) EmptyString in
  @test E Js.VUndefined s = (Ok (Cli.Returned tt), s)
  /\ exists s', @test E (Js.VStr "sk-test") s = (Ok (Cli.Returned tt), s')
                /\ Sim.connected (env s') = [].
Proof.
  intros E s.
  destruct (@test_action E Js.VUndefined s) as (Hnone & _).
  destruct (@test_action E (Js.VStr "sk-test") s) as (_ & _ & _ & Hrun).
  split.
  - apply Hnone. reflexivity.
  - eexists. split.
    + apply (Hrun 0%nat); reflexivity.
    + reflexivity.
Defined.
